(** * CloudSync mock endpoints: a shallow embedding of [mock-endpoints.py]

    The program is one request handler class, [MockEndpointHandler], with the
    methods [__init__], [do_POST], [do_GET] and [log_message], a function
    [run_mock_server] and a main block that starts two listeners.

    The handler is glue around the Python standard library.  The library
    calls it makes ([urlparse], [int], [bytes.decode], [json.loads],
    [json.dumps], [format], [socket.getfqdn]) are taken through the
    interface [PyLib]; every theorem holds for any implementation of that
    interface.  [Module Sample] gives one executable implementation, on which
    the handler is run on concrete requests.

    What the embedding fixes about the machine:
    - the console is a UTF-8 text stream with the strict error handler, as
      under a UTF-8 locale: [print] raises [UnicodeEncodeError] on a lone
      surrogate and on nothing else.  The label of a listener, a number and
      the text of an exception hold none (the program's labels are ASCII),
      so among the texts the handler prints only the id of a request can;
    - the build is a 64-bit one: a size is at most [2^63 - 1];
    - whether the process has memory for the bytes a [read] asks for is a
      question put to the interface ([allocates]).

    What the embedding leaves out:
    - [time.sleep] and the writes to the connection never raise (a client
      that went away);
    - [json.loads] fails with a [JSONDecodeError] only (no limit on nesting
      or on the digits of an integer, no shortage of memory);
    - a bind that the system refuses (a port in use, a port the process has
      no right to);
    - each listener handles its requests one after the other, and the two
      listeners share nothing, so each is studied on its own;
    - the time [time.sleep] takes is recorded, not spent. *)

From Stdlib Require Import ZArith List String Ascii Bool Lia QArith DecimalString.
Import ListNotations.
Set Warnings "-register-all".
Open Scope string_scope.
Open Scope Z_scope.

(** ** Python values *)

(** A [str] is held as its UTF-8 text, a [bytes] object as its bytes. *)
Definition str := string.
Definition bytes := list Byte.byte.
Bind Scope string_scope with str.

(** [s.encode('utf-8')], on the representation above. *)
Definition encode_utf8 (s : str) : bytes := list_byte_of_string s.

(** The double quote character and a quoted piece of text. *)
Definition dq : str := String (ascii_of_nat 34) EmptyString.
Definition quoted (s : str) : str := dq ++ s ++ dq.

(** Decimal text of an integer: [str(n)] and the [%d] conversion. *)
Definition dec (n : Z) : str := NilZero.string_of_int (Z.to_int n).

Definition hex_digit (n : nat) : ascii :=
  ascii_of_nat (if Nat.ltb n 10 then 48 + n else 87 + n).

(** The [0x%02x] conversion of one byte. *)
Definition hex_byte (b : Byte.byte) : str :=
  let n := Byte.to_nat b in
  "0x" ++ String (hex_digit (Nat.div n 16)) (String (hex_digit (Nat.modulo n 16)) EmptyString).

(** [count] hex digits of [n], the [%0<count>x] conversion. *)
Fixpoint hex_digits (count : nat) (n : N) : str :=
  match count with
  | O => EmptyString
  | S k => hex_digits k (n / 16)%N ++ String (hex_digit (N.to_nat (n mod 16)%N)) EmptyString
  end.

(** *** Code points

    A text is held as UTF-8, so one code point is one to four bytes.  A lone
    surrogate, which [json.loads] makes of an escape such as [\ud800], is
    held as the three bytes ED A0..BF 80..BF. *)

(** A byte that continues a sequence. *)
Definition is_continuation (c : ascii) : bool :=
  let n := nat_of_ascii c in Nat.leb 128 n && Nat.ltb n 192.

(** [len(s)] *)
Fixpoint code_points (s : str) : nat :=
  match s with
  | EmptyString => O
  | String c rest => if is_continuation c then code_points rest else S (code_points rest)
  end.

(** [s[n:]] *)
Fixpoint from_code_point (n : nat) (s : str) : str :=
  match s with
  | EmptyString => EmptyString
  | String c rest =>
      if is_continuation c then from_code_point n rest
      else match n with
           | O => s
           | S n' => from_code_point n' rest
           end
  end.

(** [ord(s[0])] *)
Definition first_code_point (s : str) : N :=
  match s with
  | EmptyString => 0%N
  | String c rest =>
      let n := N_of_ascii c in
      let tail (b : ascii) : N := (N_of_ascii b - 128)%N in
      if (n <? 192)%N then n
      else if (n <? 224)%N then
        match rest with
        | String b1 _ => ((n - 192) * 64 + tail b1)%N
        | _ => n
        end
      else if (n <? 240)%N then
        match rest with
        | String b1 (String b2 _) => (((n - 224) * 64 + tail b1) * 64 + tail b2)%N
        | _ => n
        end
      else
        match rest with
        | String b1 (String b2 (String b3 _)) =>
            ((((n - 240) * 64 + tail b1) * 64 + tail b2) * 64 + tail b3)%N
        | _ => n
        end
  end.

(** The first two bytes of a surrogate. *)
Definition starts_surrogate (c c1 : ascii) : bool :=
  Nat.eqb (nat_of_ascii c) 237 && Nat.leb 160 (nat_of_ascii c1).

(** The number of surrogates [s] begins with. *)
Fixpoint surrogate_run (s : str) : nat :=
  match s with
  | String c (String c1 (String c2 rest)) =>
      if starts_surrogate c c1 then S (surrogate_run rest) else O
  | _ => O
  end.

(** The first run of surrogates in [s]: the indices [start] and [end] of
    its code points, [pos] being the index of the head of [s]. *)
Fixpoint find_surrogates (s : str) (pos : nat) : option (nat * nat) :=
  match s with
  | EmptyString => None
  | String c rest =>
      match surrogate_run s with
      | S n => Some (pos, (pos + S n)%nat)
      | O => find_surrogates rest (if is_continuation c then pos else S pos)
      end
  end.

(** How the text of a [UnicodeEncodeError] shows a character. *)
Definition escape_code_point (cp : N) : str :=
  if (cp <=? 255)%N then "\x" ++ hex_digits 2 cp
  else if (cp <=? 65535)%N then "\u" ++ hex_digits 4 cp
  else "\U" ++ hex_digits 8 cp.

(** ** Exceptions *)

(** A [UnicodeDecodeError] carries [start], [end] and [reason]. *)
Record DecodeFault := mkDecodeFault {
  fault_start : nat;
  fault_end : nat;
  fault_reason : str }.

(** So does a [UnicodeEncodeError], in code points of the text. *)
Record EncodeFault := mkEncodeFault {
  encode_start : nat;
  encode_end : nat;
  encode_reason : str }.

(** A [JSONDecodeError] carries [msg], [pos], [lineno] and [colno]. *)
Record JSONFault := mkJSONFault {
  json_msg : str;
  json_pos : nat;
  json_lineno : nat;
  json_colno : nat }.

(** The exception classes the handler can meet. *)
Inductive exn :=
| UnicodeDecodeError (encoding : str) (object : bytes) (f : DecodeFault)
| UnicodeEncodeError (encoding : str) (object : str) (f : EncodeFault)
| JSONDecodeError (doc : str) (f : JSONFault)
| AttributeError (msg : str)
| ValueError (msg : str)
| OverflowError (msg : str)
| MemoryError.

(** [str(e)] for each class, as CPython formats it. *)
Definition str_exn (e : exn) : str :=
  match e with
  | UnicodeDecodeError encoding object f =>
      if Nat.ltb (fault_start f) (List.length object)
         && Nat.eqb (fault_end f) (S (fault_start f))
      then "'" ++ encoding ++ "' codec can't decode byte "
           ++ hex_byte (nth (fault_start f) object Byte.x00)
           ++ " in position " ++ dec (Z.of_nat (fault_start f))
           ++ ": " ++ fault_reason f
      else "'" ++ encoding ++ "' codec can't decode bytes in position "
           ++ dec (Z.of_nat (fault_start f)) ++ "-"
           ++ dec (Z.of_nat (fault_end f) - 1)
           ++ ": " ++ fault_reason f
  | UnicodeEncodeError encoding object f =>
      if Nat.ltb (encode_start f) (code_points object)
         && Nat.eqb (encode_end f) (S (encode_start f))
      then "'" ++ encoding ++ "' codec can't encode character '"
           ++ escape_code_point (first_code_point (from_code_point (encode_start f) object))
           ++ "' in position " ++ dec (Z.of_nat (encode_start f))
           ++ ": " ++ encode_reason f
      else "'" ++ encoding ++ "' codec can't encode characters in position "
           ++ dec (Z.of_nat (encode_start f)) ++ "-"
           ++ dec (Z.of_nat (encode_end f) - 1)
           ++ ": " ++ encode_reason f
  | JSONDecodeError _ f =>
      json_msg f ++ ": line " ++ dec (Z.of_nat (json_lineno f))
      ++ " column " ++ dec (Z.of_nat (json_colno f))
      ++ " (char " ++ dec (Z.of_nat (json_pos f)) ++ ")"
  | AttributeError msg => msg
  | ValueError msg => msg
  | OverflowError msg => msg
  | MemoryError => EmptyString
  end.

(** The objects [json.loads] returns and [json.dumps] accepts.  [F] is the
    type of floats: the handler never computes with one, it only carries
    them from [time.time()] and [json.loads] to [json.dumps]. *)
Inductive value (F : Type) :=
| VNone
| VBool (b : bool)
| VInt (n : Z)
| VFloat (x : F)
| VStr (s : str)
| VList (items : list (value F))
| VDict (items : list (str * value F)).

Arguments VNone {F}.
Arguments VBool {F} b.
Arguments VInt {F} n.
Arguments VFloat {F} x.
Arguments VStr {F} s.
Arguments VList {F} items.
Arguments VDict {F} items.

(** [type(v).__name__] *)
Definition type_name {F} (v : value F) : str :=
  match v with
  | VNone => "NoneType"
  | VBool _ => "bool"
  | VInt _ => "int"
  | VFloat _ => "float"
  | VStr _ => "str"
  | VList _ => "list"
  | VDict _ => "dict"
  end.

(** A dict as its items in insertion order, keys distinct. *)
Fixpoint dict_lookup {F} (d : list (str * value F)) (key : str) : option (value F) :=
  match d with
  | [] => None
  | (k, v) :: rest => if String.eqb k key then Some v else dict_lookup rest key
  end.

(** [d.get(key, default)] *)
Definition dict_get {F} (d : list (str * value F)) (key : str) (default : value F) : value F :=
  match dict_lookup d key with
  | Some v => v
  | None => default
  end.

(** [d[key] = v]: a present key keeps its place, a new one goes last. *)
Fixpoint dict_setitem {F} (d : list (str * value F)) (key : str) (v : value F)
  : list (str * value F) :=
  match d with
  | [] => [(key, v)]
  | (k, v0) :: rest =>
      if String.eqb k key then (k, v) :: rest else (k, v0) :: dict_setitem rest key v
  end.

(** The attribute lookup [data.get]: only a dict has the method, every
    other object raises [AttributeError]. *)
Definition getattr_get {F} (data : value F) : exn + (str -> value F -> value F) :=
  match data with
  | VDict d => inr (dict_get d)
  | _ => inl (AttributeError ("'" ++ type_name data ++ "' object has no attribute 'get'"))
  end.

(** What the console refuses of the object a replacement field shows, as
    the indices [start] and [end] of [UnicodeEncodeError]: a [str] is
    written as it is, and its lone surrogates cannot be encoded; any other
    object is written as its [repr], which escapes them. *)
Definition console_fault {F} (v : value F) : option (nat * nat) :=
  match v with
  | VStr s => find_surrogates s 0
  | _ => None
  end.

(** ** Request headers *)

Definition ascii_lower (c : ascii) : ascii :=
  let n := nat_of_ascii c in
  if Nat.leb 65 n && Nat.leb n 90 then ascii_of_nat (n + 32) else c.

Fixpoint lower (s : str) : str :=
  match s with
  | EmptyString => EmptyString
  | String c rest => String (ascii_lower c) (lower rest)
  end.

(** [email.message.Message]: the header fields in the order received. *)
Definition Message := list (str * str).

(** [Message.get(name)]: the first field whose name matches without regard
    to case, or [None]. *)
Fixpoint Message_get (m : Message) (name : str) : option str :=
  match m with
  | [] => None
  | (k, v) :: rest =>
      if String.eqb (lower k) (lower name) then Some v else Message_get rest name
  end.

(** ** The library interface *)

(** [urllib.parse.ParseResult] *)
Record ParseResult := mkParseResult {
  scheme : str;
  netloc : str;
  url_path : str;
  params : str;
  query : str;
  fragment : str }.

Record PyLib (F : Type) := mkPyLib {
  (** [urlparse(url)]: the six components, or the exception it raises. *)
  urlparse : str -> exn + ParseResult;
  (** [int(s)] on a [str]: the integer, or the exception it raises. *)
  int_of_str : str -> exn + Z;
  (** [b.decode('utf-8')]: the text, or where and why decoding stopped. *)
  utf8_decode : bytes -> DecodeFault + str;
  (** [json.loads(s)]: the object, or where and why parsing stopped. *)
  json_loads : str -> JSONFault + value F;
  (** [json.dumps(obj)] with the default options. *)
  json_dumps : value F -> str;
  (** [format(obj)], the replacement-field conversion of an f-string. *)
  format_value : value F -> str;
  (** [socket.getfqdn(host)] *)
  getfqdn : str -> str;
  (** The port the system gives to a bind that asks for port 0. *)
  free_port : Z;
  (** Whether the process has memory for a [bytes] object of this size. *)
  allocates : Z -> bool;
  (** The empty [bytes] object decodes to the empty text. *)
  utf8_decode_empty : utf8_decode [] = inr EmptyString;
  (** The empty text is no JSON document. *)
  json_loads_empty : json_loads EmptyString = inl (mkJSONFault "Expecting value" 0 1 1);
  (** The empty [bytes] object is there already. *)
  allocates_nothing : allocates 0 = true }.

Arguments urlparse {F} _ _.
Arguments int_of_str {F} _ _.
Arguments utf8_decode {F} _ _.
Arguments json_loads {F} _ _.
Arguments json_dumps {F} _ _.
Arguments format_value {F} _ _.
Arguments getfqdn {F} _ _.
Arguments free_port {F} _.
Arguments allocates {F} _ _.
Arguments utf8_decode_empty {F} _.
Arguments json_loads_empty {F} _.
Arguments allocates_nothing {F} _.

(** ** Servers, handlers and the world a request runs in *)

(** [HTTPServer]: the attributes the program reads or writes. *)
Record HTTPServer := mkHTTPServer {
  server_address : str * Z;
  server_name : str;
  server_port : Z }.

(** The attributes of one [MockEndpointHandler] instance. *)
Record Handler := mkHandler {
  request_count : Z;
  server : HTTPServer;
  requestline : str;
  path : str;
  headers : Message }.

(** What a handler sends on its connection, in order: the status line of
    [send_response] (with the [Server] and [Date] fields the base class adds),
    one [send_header] field, the blank line of [end_headers], and one
    [wfile.write]. *)
Inductive Event :=
| StatusLine (code : Z)
| HeaderField (keyword val : str)
| EndHeaders
| Body (data : bytes).

(** The state a method call works in: the instance ([self]), its two
    streams, the console, the time asked of [time.sleep], and the reading
    [time.time()] gives. *)
Record World (F : Type) := mkWorld {
  self : Handler;
  rfile : bytes;
  wfile : list Event;
  stdout : list str;
  slept : list Q;
  clock : F }.

Arguments mkWorld {F} _ _ _ _ _ _.
Arguments self {F} _.
Arguments rfile {F} _.
Arguments wfile {F} _.
Arguments stdout {F} _.
Arguments slept {F} _.
Arguments clock {F} _.

Definition set_self {F} (h : Handler) (w : World F) : World F :=
  mkWorld h (rfile w) (wfile w) (stdout w) (slept w) (clock w).

Definition set_rfile {F} (r : bytes) (w : World F) : World F :=
  mkWorld (self w) r (wfile w) (stdout w) (slept w) (clock w).

Definition set_wfile {F} (o : list Event) (w : World F) : World F :=
  mkWorld (self w) (rfile w) o (stdout w) (slept w) (clock w).

Definition set_stdout {F} (o : list str) (w : World F) : World F :=
  mkWorld (self w) (rfile w) (wfile w) o (slept w) (clock w).

Definition set_slept {F} (q : list Q) (w : World F) : World F :=
  mkWorld (self w) (rfile w) (wfile w) (stdout w) q (clock w).

Definition set_request_count (n : Z) (h : Handler) : Handler :=
  mkHandler n (server h) (requestline h) (path h) (headers h).

(** ** Statements: state passing with exceptions *)

(** A statement maps the world to a result or a raised exception, and the
    world it leaves; what was done before a raise stays done. *)
Definition M (F A : Type) : Type := World F -> (exn + A) * World F.

Definition ret {F A} (a : A) : M F A := fun w => (inr a, w).

Definition bind {F A B} (m : M F A) (k : A -> M F B) : M F B :=
  fun w =>
    match m w with
    | (inr a, w') => k a w'
    | (inl e, w') => (inl e, w')
    end.

Definition lift {F A} (r : exn + A) : M F A := fun w => (r, w).

Definition gets {F A} (f : World F -> A) : M F A := fun w => (inr (f w), w).

Definition modify {F} (f : World F -> World F) : M F unit := fun w => (inr tt, f w).

(** [try: body except Exception as e: handler(e)] *)
Definition try_except {F A} (body : M F A) (handler : exn -> M F A) : M F A :=
  fun w =>
    match body w with
    | (inl e, w') => handler e w'
    | (inr a, w') => (inr a, w')
    end.

Declare Scope py_scope.
Delimit Scope py_scope with py.
Notation "x <- m ;; k" := (bind m (fun x => k))
  (at level 100, m at next level, right associativity) : py_scope.
Notation "m ;; k" := (bind m (fun _ => k))
  (at level 100, right associativity) : py_scope.

(** ** Built-ins and base-class methods the handler calls *)

(** The largest size of an object, [sys.maxsize]: [2^63 - 1]. *)
Definition PY_SSIZE_T_MAX : Z := 9223372036854775807.

Section Runtime.
Context {F : Type} (L : PyLib F).

(** [print(line)] for a line the console can encode: the line is written.
    Such are the lines made of a label, a number and the text of an
    exception. *)
Definition print (line : str) : M F unit :=
  modify (fun w => set_stdout (stdout w ++ [line]) w).

(** [print(f"{before}{v}")], where [before] is such a text and [v] comes
    from the request: the console encodes the whole line before it writes
    any of it, and raises [UnicodeEncodeError] on the first run of lone
    surrogates. *)
Definition print_field (before : str) (v : value F) : M F unit :=
  let line := before ++ format_value L v in
  match console_fault v with
  | Some (start, stop) =>
      lift (inl (UnicodeEncodeError "utf-8" line
                   (mkEncodeFault (code_points before + start) (code_points before + stop)
                      "surrogates not allowed")))
  | None => print line
  end.

(** [time.sleep(seconds)] *)
Definition time_sleep (seconds : Q) : M F unit :=
  modify (fun w => set_slept (slept w ++ [seconds]) w).

(** [time.time()] *)
Definition time_time : M F F := gets clock.

(** [self.rfile.read(size)] on a buffered reader: [size] bytes, or what is
    left when the stream ends before; everything when [size] is [-1]; a
    [ValueError] below that.  A [size] that is no machine size is refused
    first; one for which no [bytes] object can be made, with its header of
    33 bytes or for want of memory, is refused before anything is read. *)
Definition rfile_read (size : Z) : M F bytes :=
  fun w =>
    if (size <? - PY_SSIZE_T_MAX - 1) || (PY_SSIZE_T_MAX <? size)
    then (inl (OverflowError "cannot fit 'int' into an index-sized integer"), w)
    else if size <? -1 then (inl (ValueError "read length must be non-negative or -1"), w)
    else if size =? -1 then (inr (rfile w), set_rfile [] w)
    else if PY_SSIZE_T_MAX - 33 <? size then (inl (OverflowError "byte string is too large"), w)
    else if negb (allocates L size) then (inl MemoryError, w)
    else (inr (firstn (Z.to_nat size) (rfile w)),
          set_rfile (skipn (Z.to_nat size) (rfile w)) w).

Definition emit (ev : Event) : M F unit :=
  modify (fun w => set_wfile (wfile w ++ [ev]) w).

(** [MockEndpointHandler.log_message], source lines 68-70: the override
    does nothing. *)
Definition log_message (format : str) (args : list str) : M F unit := ret tt.

(** [BaseHTTPRequestHandler.log_request]: one [log_message] call. *)
Definition log_request (code : Z) : M F unit :=
  (rl <- gets (fun w => requestline (self w)) ;;
   log_message (quoted "%s" ++ " %s %s") [rl; dec code; "-"])%py.

(** [BaseHTTPRequestHandler.send_response]: logs the request, then queues
    the status line. *)
Definition send_response (code : Z) : M F unit :=
  (log_request code ;; emit (StatusLine code))%py.

Definition send_header (keyword val : str) : M F unit := emit (HeaderField keyword val).

Definition end_headers : M F unit := emit EndHeaders.

Definition wfile_write (data : bytes) : M F unit := emit (Body data).

End Runtime.

(** ** Requests reaching a listener *)

(** The methods the class defines; the base class answers any other. *)
Inductive Method := GET | POST.

(** One parsed request: what [parse_request] stores in the instance, the
    bytes that follow the header block until the client ends the stream, and
    the clock while the request is handled. *)
Record Request (F : Type) := mkRequest {
  command : Method;
  request_line : str;
  request_target : str;
  request_headers : Message;
  request_rest : bytes;
  request_time : F }.

Arguments mkRequest {F} _ _ _ _ _ _.
Arguments command {F} _.
Arguments request_line {F} _.
Arguments request_target {F} _.
Arguments request_headers {F} _.
Arguments request_rest {F} _.
Arguments request_time {F} _.

(** ** The program *)

Section Program.
Context {F : Type} (L : PyLib F).

(** [body.decode('utf-8')] *)
Definition bytes_decode (body : bytes) : exn + str :=
  match utf8_decode L body with
  | inl f => inl (UnicodeDecodeError "utf-8" body f)
  | inr text => inr text
  end.

(** [json.loads(text)] *)
Definition loads (text : str) : exn + value F :=
  match json_loads L text with
  | inl f => inl (JSONDecodeError text f)
  | inr data => inr data
  end.

(** Source line 29, [json.loads(body.decode('utf-8'))]. *)
Definition decode_body (body : bytes) : exn + value F :=
  match bytes_decode body with
  | inl e => inl e
  | inr text => loads text
  end.

(** Source line 25, [int(self.headers.get('Content-Length', 0))]: the
    default is the integer 0, on which [int] is the identity. *)
Definition content_length_of (hs : Message) : exn + Z :=
  match Message_get hs "Content-Length" with
  | Some field => int_of_str L field
  | None => inr 0
  end.

(** [MockEndpointHandler.__init__], source lines 13-15: the counter is set
    to 0, then the base class stores the server; the request line, the path
    and the headers are filled in when the request is parsed. *)
Definition MockEndpointHandler_init (srv : HTTPServer) : Handler :=
  mkHandler 0 srv EmptyString EmptyString [].

(** Source line 19, [self.request_count += 1]. *)
Definition count_request (w : World F) : World F :=
  set_self (set_request_count (request_count (self w) + 1) (self w)) w.

(** Source lines 21-26 of [do_POST]: parse the path, read the announced
    length, read the body. *)
Definition read_body : M F bytes :=
  (url <- gets (fun w => path (self w)) ;;
   parsed_url <- lift (urlparse L url) ;;
   hs <- gets (fun w => headers (self w)) ;;
   content_length <- lift (content_length_of hs) ;;
   rfile_read L content_length)%py.

(** Source lines 29-46 of [do_POST], the body of the [try]. *)
Definition try_block (body : bytes) : M F unit :=
  (data <- lift (decode_body body) ;;
   name <- gets (fun w => server_name (server (self w))) ;;
   n <- gets (fun w => request_count (self w)) ;;
   get <- lift (getattr_get data) ;;
   print_field L ("[" ++ name ++ "] Received request #" ++ dec n ++ ": ")
     (get "id" (VStr "unknown")) ;;
   time_sleep 0.1 ;;
   name <- gets (fun w => server_name (server (self w))) ;;
   get <- lift (getattr_get data) ;;
   now <- time_time ;;
   let response :=
     VDict [("success", VBool true);
            ("message", VStr ("Data saved successfully to " ++ name));
            ("id", get "id" VNone);
            ("timestamp", VFloat now)] in
   send_response 200 ;;
   send_header "Content-Type" "application/json" ;;
   end_headers ;;
   wfile_write (encode_utf8 (json_dumps L response)))%py.

(** Source lines 48-54 of [do_POST], the [except Exception as e] clause. *)
Definition except_block (e : exn) : M F unit :=
  (name <- gets (fun w => server_name (server (self w))) ;;
   print ("[" ++ name ++ "] Error processing request: " ++ str_exn e) ;;
   send_response 500 ;;
   send_header "Content-Type" "application/json" ;;
   end_headers ;;
   let error_response := VDict [("error", VStr (str_exn e))] in
   wfile_write (encode_utf8 (json_dumps L error_response)))%py.

(** [MockEndpointHandler.do_POST], source lines 17-54. *)
Definition do_POST : M F unit :=
  (modify count_request ;;
   body <- read_body ;;
   try_except (try_block body) except_block)%py.

(** [MockEndpointHandler.do_GET], source lines 56-66. *)
Definition do_GET : M F unit :=
  (send_response 200 ;;
   send_header "Content-Type" "application/json" ;;
   end_headers ;;
   name <- gets (fun w => server_name (server (self w))) ;;
   now <- time_time ;;
   let response :=
     VDict [("status", VStr "healthy");
            ("service", VStr name);
            ("timestamp", VFloat now)] in
   wfile_write (encode_utf8 (json_dumps L response)))%py.

(** [socket.bind(address)] followed by [socket.getsockname()], on an
    IPv4 address: a port outside 0..65535 is refused; port 0 asks the system
    for a free port, and the socket's name has the port it got. *)
Definition socket_bind (address : str * Z) : exn + str * Z :=
  let '(host, port) := address in
  if (port <? 0) || (65535 <? port) then inl (OverflowError "bind(): port must be 0-65535.")
  else if port =? 0 then inr (host, free_port L)
  else inr (host, port).

(** [HTTPServer(server_address, MockEndpointHandler)]: [server_bind] binds
    the socket, keeps the socket's name as the server's address, and gives
    the server the host's name and the port of that address. *)
Definition HTTPServer_init (address : str * Z) : exn + HTTPServer :=
  match socket_bind address with
  | inl e => inl e
  | inr bound => inr (mkHTTPServer bound (getfqdn L (fst bound)) (snd bound))
  end.

(** [run_mock_server(port, name)], source lines 72-77: the server it then
    serves forever and the line it prints, or the exception of the
    constructor, which ends the call before the line is printed. *)
Definition run_mock_server (port : Z) (name : str) : exn + HTTPServer * str :=
  match HTTPServer_init ("0.0.0.0", port) with
  | inl e => inl e
  | inr server =>
      let server := mkHTTPServer (server_address server) name (server_port server) in
      inr (server, "Starting " ++ name ++ " mock server on port " ++ dec port)
  end.

(** A thread whose [run_mock_server] raised serves nothing; [no_server]
    stands for what it serves. *)
Definition no_server : HTTPServer := mkHTTPServer (EmptyString, 0) EmptyString 0.

Definition served (started : exn + HTTPServer * str) : HTTPServer :=
  match started with
  | inr (server, _) => server
  | inl _ => no_server
  end.

(** The main block, source lines 80-88: the two listeners it starts. *)
Definition aws_listener : HTTPServer := served (run_mock_server 8081 "AWS-API").
Definition azure_listener : HTTPServer := served (run_mock_server 8082 "Azure-API").
Definition listeners : list HTTPServer := [aws_listener; azure_listener].

(** The method named by [self.command]. *)
Definition dispatch (m : Method) : M F unit :=
  match m with
  | GET => do_GET
  | POST => do_POST
  end.

(** [parse_request]: the base class stores the request in the instance;
    the stream then stands right after the header block. *)
Definition parse_request (r : Request F) : M F unit :=
  modify (fun w =>
            mkWorld (mkHandler (request_count (self w)) (server (self w))
                               (request_line r) (request_target r) (request_headers r))
                    (request_rest r) (wfile w) (stdout w) (slept w) (request_time r)).

(** [handle_one_request]: parse, then call the method. *)
Definition handle_one_request (r : Request F) : M F unit :=
  (parse_request r ;; dispatch (command r))%py.

(** A new connection: a handler instance is built for it, nothing read or
    sent yet. *)
Definition connect (srv : HTTPServer) (console : list str) (now : F) : World F :=
  mkWorld (MockEndpointHandler_init srv) [] [] console [] now.

(** [finish_request]: one request on a new connection.  The class keeps the
    base class's protocol version, HTTP/1.0, so [handle] calls
    [handle_one_request] once and the connection is closed: an instance
    handles one request. *)
Definition finish_request (srv : HTTPServer) (console : list str) (r : Request F)
  : (exn + unit) * World F :=
  handle_one_request r (connect srv console (request_time r)).

(** [serve_forever] over the requests that arrive, one after the other: the
    server object is shared by all handlers; what each connection was sent
    is collected. *)
Fixpoint serve_forever (srv : HTTPServer) (console : list str) (rs : list (Request F))
  : HTTPServer * list str * list (list Event) :=
  match rs with
  | [] => (srv, console, [])
  | r :: rest =>
      let w := snd (finish_request srv console r) in
      let '(srv', console', sent) := serve_forever (server (self w)) (stdout w) rest in
      (srv', console', wfile w :: sent)
  end.

(** *** Vocabulary of the theorems *)

(** The four writes that make one JSON response. *)
Definition json_response (code : Z) (payload : value F) : list Event :=
  [StatusLine code;
   HeaderField "Content-Type" "application/json";
   EndHeaders;
   Body (encode_utf8 (json_dumps L payload))].

(** The value the Received line shows for the dict [d]: source line 30,
    [data.get('id', 'unknown')]. *)
Definition shown_id (d : list (str * value F)) : value F := dict_get d "id" (VStr "unknown").

(** The text of the Received line in front of that value, for the instance
    [h]. *)
Definition received_before (h : Handler) : str :=
  "[" ++ server_name (server h) ++ "] Received request #" ++ dec (request_count h) ++ ": ".

(** The exception [print] raises at line 30 when the console refuses the
    code points [start] to [stop] of the value shown. *)
Definition not_shown (h : Handler) (v : value F) (start stop : nat) : exn :=
  UnicodeEncodeError "utf-8" (received_before h ++ format_value L v)
    (mkEncodeFault (code_points (received_before h) + start)
                   (code_points (received_before h) + stop)
                   "surrogates not allowed").

(** What one connection of a listener labelled [name] can have been sent:
    nothing (the method raised), the error record, the success record with
    [name] in its message, or the health record with [name] as service. *)
Definition carries_label (name : str) (sent : list Event) : Prop :=
  sent = []
  \/ (exists e, sent = json_response 500 (VDict [("error", VStr (str_exn e))]))
  \/ (exists idv now,
        sent = json_response 200
                 (VDict [("success", VBool true);
                         ("message", VStr ("Data saved successfully to " ++ name));
                         ("id", idv);
                         ("timestamp", VFloat now)]))
  \/ (exists now,
        sent = json_response 200
                 (VDict [("status", VStr "healthy");
                         ("service", VStr name);
                         ("timestamp", VFloat now)])).

End Program.

(** ** An executable library

    One implementation of [PyLib], written after CPython 3.11 and used to
    run the handler on concrete requests.  It follows CPython on ASCII text
    and on well-formed UTF-8; where it stops short is said at each
    function. *)

Module Sample.
Local Open Scope nat_scope.

Definition code (c : ascii) : nat := nat_of_ascii c.

Definition in_range (lo hi : nat) (n : nat) : bool := Nat.leb lo n && Nat.leb n hi.

Definition is_digit (c : ascii) : bool := in_range 48 57 (code c).

Fixpoint string_of_chars (cs : list ascii) : str :=
  match cs with
  | [] => EmptyString
  | c :: rest => String c (string_of_chars rest)
  end.

(** *** [bytes.decode('utf-8')] *)

(** The ranges the bytes after a lead byte must lie in, by lead byte; [None]
    for a byte that cannot start a character. *)
Definition continuation_ranges (lead : nat) : option (list (nat * nat)) :=
  if in_range 194 223 lead then Some [(128, 191)]
  else if Nat.eqb lead 224 then Some [(160, 191); (128, 191)]
  else if in_range 225 236 lead || in_range 238 239 lead then Some [(128, 191); (128, 191)]
  else if Nat.eqb lead 237 then Some [(128, 159); (128, 191)]
  else if Nat.eqb lead 240 then Some [(144, 191); (128, 191); (128, 191)]
  else if in_range 241 243 lead then Some [(128, 191); (128, 191); (128, 191)]
  else if Nat.eqb lead 244 then Some [(128, 143); (128, 191); (128, 191)]
  else None.

(** Checks the bytes after a lead byte; [seen] counts the bytes of the
    character read so far.  The fault ends where the decoder gave up. *)
Fixpoint check_continuation (ranges : list (nat * nat)) (b : bytes) (start seen : nat)
  : DecodeFault + bytes :=
  match ranges with
  | [] => inr b
  | (lo, hi) :: more =>
      match b with
      | [] => inl (mkDecodeFault start (start + seen) "unexpected end of data")
      | x :: rest =>
          if in_range lo hi (Byte.to_nat x)
          then check_continuation more rest start (S seen)
          else inl (mkDecodeFault start (start + seen) "invalid continuation byte")
      end
  end.

Fixpoint utf8_check (fuel : nat) (b : bytes) (pos : nat) : option DecodeFault :=
  match fuel, b with
  | _, [] => None
  | O, _ :: _ => None
  | S fuel', x :: rest =>
      let n := Byte.to_nat x in
      if Nat.ltb n 128 then utf8_check fuel' rest (S pos)
      else match continuation_ranges n with
           | None => Some (mkDecodeFault pos (S pos) "invalid start byte")
           | Some ranges =>
               match check_continuation ranges rest pos 1 with
               | inl f => Some f
               | inr rest' => utf8_check fuel' rest' (S pos + List.length ranges)
               end
           end
  end.

(** The text, or the first fault; its positions are byte offsets. *)
Definition utf8_decode (b : bytes) : DecodeFault + str :=
  match utf8_check (List.length b) b 0 with
  | Some f => inl f
  | None => inr (string_of_list_byte b)
  end.

(** *** [repr] of a [str] *)

Fixpoint contains (c : ascii) (s : str) : bool :=
  match s with
  | EmptyString => false
  | String x rest => Ascii.eqb x c || contains c rest
  end.

Definition hex2 (n : nat) : str :=
  String (hex_digit (n / 16)) (String (hex_digit (n mod 16)) EmptyString).

Fixpoint repr_chars (quote : ascii) (s : str) : str :=
  match s with
  | EmptyString => EmptyString
  | String c rest =>
      let n := code c in
      match surrogate_run s, rest with
      | S _, String _ (String _ after) =>
          escape_code_point (first_code_point s) ++ repr_chars quote after
      | _, _ =>
          (if Ascii.eqb c quote || Nat.eqb n 92
           then String (ascii_of_nat 92) (String c EmptyString)
           else if Nat.eqb n 9 then "\t"
           else if Nat.eqb n 10 then "\n"
           else if Nat.eqb n 13 then "\r"
           else if Nat.ltb n 32 || Nat.eqb n 127 then "\x" ++ hex2 n
           else String c EmptyString) ++ repr_chars quote rest
      end
  end%string.

(** [repr(s)]: single quotes unless the text has one and no double quote.
    A lone surrogate is escaped; every other character above ASCII is taken
    as printable. *)
Definition repr_str (s : str) : str :=
  let quote := if contains "'" s && negb (contains (ascii_of_nat 34) s)
               then ascii_of_nat 34 else "'"%char in
  String quote (repr_chars quote s ++ String quote EmptyString).

(** *** [int(s)] *)

(** White space as [int] sees it in ASCII text. *)
Definition is_space (c : ascii) : bool :=
  in_range 9 13 (code c) || Nat.eqb (code c) 32.

Fixpoint lstrip (s : str) : str :=
  match s with
  | String c rest => if is_space c then lstrip rest else s
  | EmptyString => EmptyString
  end.

Fixpoint rstrip (s : str) : str :=
  match s with
  | EmptyString => EmptyString
  | String c rest =>
      match rstrip rest with
      | EmptyString => if is_space c then EmptyString else String c EmptyString
      | kept => String c kept
      end
  end.

(** Digits with single underscores between them: the value and the number
    of digits, reading left to right from [acc]. *)
Fixpoint digits_value (s : str) (acc : Z) (count : nat) (after_digit : bool)
  : option (Z * nat) :=
  match s with
  | EmptyString => if after_digit then Some (acc, count) else None
  | String c rest =>
      if is_digit c
      then digits_value rest (10 * acc + Z.of_nat (code c - 48))%Z (S count) true
      else if Nat.eqb (code c) 95 && after_digit
      then digits_value rest acc count false
      else None
  end.

(** [int(s)]: white space around, an optional sign, decimal digits; above
    4300 digits the conversion is refused.  Only ASCII digits and white
    space are recognised. *)
Definition int_of_str (s : str) : exn + Z :=
  let invalid :=
    ValueError ("invalid literal for int() with base 10: " ++ substring 0 200 (repr_str s)) in
  let body := rstrip (lstrip s) in
  let '(negative, ds) :=
    match body with
    | String "-" rest => (true, rest)
    | String "+" rest => (false, rest)
    | _ => (false, body)
    end in
  match digits_value ds 0%Z 0 false with
  | None => inl invalid
  | Some (n, count) =>
      if Nat.ltb 4300 count
      then inl (ValueError
                  ("Exceeds the limit (4300 digits) for integer string conversion: value has "
                   ++ dec (Z.of_nat count)
                   ++ " digits; use sys.set_int_max_str_digits() to increase the limit"))
      else inr (if negative then (- n)%Z else n)
  end.

(** *** Floats *)

(** A float is kept as the literal that denotes it, so no rounding to
    binary64 takes place and [repr] gives the literal back. *)
Inductive float :=
| Literal (text : str)
| NaN
| Infinity (negative : bool).

(** *** [json.loads] *)

(** A fault is a message and the byte offset it points at; a parser gives
    what it read, the text left and the offset of that text. *)
Definition fault : Type := str * nat.
Definition parsed (A : Type) : Type := fault + (A * str * nat).

Definition is_ws (c : ascii) : bool :=
  let n := code c in
  Nat.eqb n 32 || Nat.eqb n 9 || Nat.eqb n 10 || Nat.eqb n 13.

Fixpoint skip_ws (s : str) (pos : nat) : str * nat :=
  match s with
  | String c rest => if is_ws c then skip_ws rest (S pos) else (s, pos)
  | EmptyString => (s, pos)
  end.

Fixpoint drop (n : nat) (s : str) : str :=
  match n, s with
  | S n', String _ rest => drop n' rest
  | _, _ => s
  end.

Definition hex_value (c : ascii) : option N :=
  let n := code c in
  if in_range 48 57 n then Some (N.of_nat (n - 48))
  else if in_range 97 102 n then Some (N.of_nat (n - 87))
  else if in_range 65 70 n then Some (N.of_nat (n - 55))
  else None.

(** Four hex digits and the text after them. *)
Definition hex4 (s : str) : option (N * str) :=
  match s with
  | String a (String b (String c (String d rest))) =>
      match hex_value a, hex_value b, hex_value c, hex_value d with
      | Some x, Some y, Some z, Some t => Some (((x * 16 + y) * 16 + z) * 16 + t, rest)%N
      | _, _, _, _ => None
      end
  | _ => None
  end.

Definition between (lo hi cp : N) : bool := N.leb lo cp && N.leb cp hi.

(** [chr(cp).encode('utf-8', 'surrogatepass')] *)
Definition utf8_of_code_point (cp : N) : str :=
  string_of_chars
    (map ascii_of_N
       (if N.ltb cp 128 then [cp]
        else if N.ltb cp 2048 then [192 + cp / 64; 128 + cp mod 64]
        else if N.ltb cp 65536
        then [224 + cp / 4096; 128 + (cp / 64) mod 64; 128 + cp mod 64]
        else [240 + cp / 262144; 128 + (cp / 4096) mod 64;
              128 + (cp / 64) mod 64; 128 + cp mod 64])%N).

Definition simple_escape (c : ascii) : option ascii :=
  let n := code c in
  if Nat.eqb n 34 || Nat.eqb n 92 || Nat.eqb n 47 then Some c
  else if Nat.eqb n 98 then Some (ascii_of_nat 8)
  else if Nat.eqb n 102 then Some (ascii_of_nat 12)
  else if Nat.eqb n 110 then Some (ascii_of_nat 10)
  else if Nat.eqb n 114 then Some (ascii_of_nat 13)
  else if Nat.eqb n 116 then Some (ascii_of_nat 9)
  else None.

(** The scanner for the inside of a JSON string, [s] being the text right
    after the opening quote at offset [begin]. *)
Fixpoint scanstring (fuel : nat) (s : str) (pos begin : nat) (acc : str) : parsed str :=
  match fuel with
  | O => inl ("Unterminated string starting at", begin)
  | S fuel' =>
      match s with
      | EmptyString => inl ("Unterminated string starting at", begin)
      | String c rest =>
          if Nat.eqb (code c) 34 then inr (acc, rest, S pos)
          else if Nat.eqb (code c) 92 then
            match rest with
            | EmptyString => inl ("Unterminated string starting at", begin)
            | String e rest2 =>
                if Nat.eqb (code e) 117 then
                  if Nat.leb (String.length rest2) 4 then inl ("Invalid \uXXXX escape", S pos)
                  else match hex4 rest2 with
                       | None => inl ("Invalid \uXXXX escape", S pos)
                       | Some (c1, rest3) =>
                           let single :=
                             scanstring fuel' rest3 (pos + 6) begin (acc ++ utf8_of_code_point c1) in
                           if between 55296 56319 c1 && Nat.ltb 6 (String.length rest3)
                           then match rest3 with
                                | String b (String u rest4) =>
                                    if Nat.eqb (code b) 92 && Nat.eqb (code u) 117
                                    then match hex4 rest4 with
                                         | None => inl ("Invalid \uXXXX escape", pos + 7)
                                         | Some (c2, rest5) =>
                                             if between 56320 57343 c2
                                             then scanstring fuel' rest5 (pos + 12) begin
                                                    (acc ++ utf8_of_code_point
                                                              (65536 + (c1 - 55296) * 1024 + (c2 - 56320))%N)
                                             else single
                                         end
                                    else single
                                | _ => single
                                end
                           else single
                       end
                else match simple_escape e with
                     | Some ch => scanstring fuel' rest2 (pos + 2) begin (acc ++ String ch EmptyString)
                     | None => inl ("Invalid \escape", pos)
                     end
            end
          else if Nat.leb (code c) 31 then inl ("Invalid control character at", pos)
          else scanstring fuel' rest (S pos) begin (acc ++ String c EmptyString)
      end
  end%string.

Fixpoint take_digits (s : str) : str * str :=
  match s with
  | String c rest =>
      if is_digit c then let '(ds, after) := take_digits rest in (String c ds, after)
      else (EmptyString, s)
  | EmptyString => (EmptyString, EmptyString)
  end.

Fixpoint decimal_value (ds : str) (acc : Z) : Z :=
  match ds with
  | String c rest => decimal_value rest (10 * acc + Z.of_nat (code c - 48))%Z
  | EmptyString => acc
  end.

(** The integer part of a number: an optional minus, then 0 or a digit
    string that does not start with 0. *)
Definition match_integer (s : str) : option (bool * str * str) :=
  let '(negative, s1) :=
    match s with
    | String "-" rest => (true, rest)
    | _ => (false, s)
    end in
  match s1 with
  | String "0" rest => Some (negative, "0"%string, rest)
  | String c _ =>
      if is_digit c then let '(ds, rest) := take_digits s1 in Some (negative, ds, rest)
      else None
  | EmptyString => None
  end.

(** A fraction, a dot and digits, when the text starts with one. *)
Definition match_fraction (s : str) : str * str :=
  match s with
  | String "." rest =>
      match take_digits rest with
      | (EmptyString, _) => (EmptyString, s)
      | (ds, after) => (String "." ds, after)
      end
  | _ => (EmptyString, s)
  end.

(** An exponent, [e] or [E], an optional sign and digits, when the text
    starts with one. *)
Definition match_exponent (s : str) : str * str :=
  match s with
  | String e rest =>
      if Nat.eqb (code e) 101 || Nat.eqb (code e) 69 then
        let '(sign, rest1) :=
          match rest with
          | String "+" r => ("+"%string, r)
          | String "-" r => ("-"%string, r)
          | _ => (EmptyString, rest)
          end in
        match take_digits rest1 with
        | (EmptyString, _) => (EmptyString, s)
        | (ds, after) => (String e (sign ++ ds), after)
        end
      else (EmptyString, s)
  | EmptyString => (EmptyString, s)
  end%string.

(** A JSON number at the head of [s]: an [int] when it has neither fraction
    nor exponent, a [float] otherwise. *)
Definition match_number (s : str) (pos : nat) : option (value float * str * nat) :=
  match match_integer s with
  | None => None
  | Some (negative, ds, rest) =>
      let '(frac, rest1) := match_fraction rest in
      let '(ex, rest2) := match_exponent rest1 in
      let sign := if negative then "-"%string else EmptyString in
      let text := (sign ++ ds ++ frac ++ ex)%string in
      Some (match frac, ex with
            | EmptyString, EmptyString =>
                VInt (if negative then (- decimal_value ds 0)%Z else decimal_value ds 0%Z)
            | _, _ => VFloat (Literal text)
            end, rest2, pos + String.length text)
  end.

Definition literals : list (str * value float) :=
  [("null"%string, VNone); ("true"%string, VBool true); ("false"%string, VBool false);
   ("NaN"%string, VFloat NaN); ("Infinity"%string, VFloat (Infinity false));
   ("-Infinity"%string, VFloat (Infinity true))].

Fixpoint match_literal (table : list (str * value float)) (s : str) (pos : nat)
  : option (value float * str * nat) :=
  match table with
  | [] => None
  | (word, v) :: more =>
      if String.prefix word s
      then Some (v, drop (String.length word) s, pos + String.length word)
      else match_literal more s pos
  end.

(** The scanner: one JSON value at the head of [s].  The three functions
    call each other on shorter text; [fuel] bounds the depth of the calls. *)
Fixpoint scan_once (fuel : nat) (s : str) (pos : nat) : parsed (value float) :=
  match fuel with
  | O => inl ("Expecting value"%string, pos)
  | S fuel' =>
      match s with
      | EmptyString => inl ("Expecting value"%string, pos)
      | String c rest =>
          if Nat.eqb (code c) 34 then
            match scanstring (S (String.length rest)) rest (S pos) pos EmptyString with
            | inl f => inl f
            | inr (text, after, pos') => inr (VStr text, after, pos')
            end
          else if Nat.eqb (code c) 123 then
            match skip_ws rest (S pos) with
            | (String "}" after, pos') => inr (VDict [], after, S pos')
            | (s1, pos1) => object_pairs fuel' s1 pos1 []
            end
          else if Nat.eqb (code c) 91 then
            match skip_ws rest (S pos) with
            | (String "]" after, pos') => inr (VList [], after, S pos')
            | (s1, pos1) => array_items fuel' s1 pos1 []
            end
          else
            match match_literal literals s pos with
            | Some r => inr r
            | None =>
                match match_number s pos with
                | Some r => inr r
                | None => inl ("Expecting value"%string, pos)
                end
            end
      end
  end
with array_items (fuel : nat) (s : str) (pos : nat) (acc : list (value float))
  : parsed (value float) :=
  match fuel with
  | O => inl ("Expecting value"%string, pos)
  | S fuel' =>
      match scan_once fuel' s pos with
      | inl f => inl f
      | inr (v, s2, pos2) =>
          match skip_ws s2 pos2 with
          | (String "]" after, pos3) => inr (VList (acc ++ [v]), after, S pos3)
          | (String "," after, pos3) =>
              let '(s4, pos4) := skip_ws after (S pos3) in
              array_items fuel' s4 pos4 (acc ++ [v])
          | (_, pos3) => inl ("Expecting ',' delimiter"%string, pos3)
          end
      end
  end
with object_pairs (fuel : nat) (s : str) (pos : nat) (acc : list (str * value float))
  : parsed (value float) :=
  match fuel with
  | O => inl ("Expecting value"%string, pos)
  | S fuel' =>
      match s with
      | String q rest =>
          if Nat.eqb (code q) 34 then
            match scanstring (S (String.length rest)) rest (S pos) pos EmptyString with
            | inl f => inl f
            | inr (key, s2, pos2) =>
                match skip_ws s2 pos2 with
                | (String ":" after, pos3) =>
                    let '(s4, pos4) := skip_ws after (S pos3) in
                    match scan_once fuel' s4 pos4 with
                    | inl f => inl f
                    | inr (v, s5, pos5) =>
                        match skip_ws s5 pos5 with
                        | (String "}" after', pos6) =>
                            inr (VDict (dict_setitem acc key v), after', S pos6)
                        | (String "," after', pos6) =>
                            let '(s7, pos7) := skip_ws after' (S pos6) in
                            object_pairs fuel' s7 pos7 (dict_setitem acc key v)
                        | (_, pos6) => inl ("Expecting ',' delimiter"%string, pos6)
                        end
                    end
                | (_, pos3) => inl ("Expecting ':' delimiter"%string, pos3)
                end
            end
          else inl ("Expecting property name enclosed in double quotes"%string, pos)
      | EmptyString => inl ("Expecting property name enclosed in double quotes"%string, pos)
      end
  end.

(** The [JSONDecodeError] for a fault: [pos] counts characters, [lineno]
    the line feeds before it, [colno] the characters since the last one. *)
Fixpoint locate (doc : str) (bytes_left pos lineno colno : nat) : nat * nat * nat :=
  match bytes_left, doc with
  | S n, String c rest =>
      if Nat.eqb (code c) 10 then locate rest n (S pos) (S lineno) 1
      else if in_range 128 191 (code c) then locate rest n pos lineno colno
      else locate rest n (S pos) lineno (S colno)
  | _, _ => (pos, lineno, colno)
  end.

Definition json_fault (doc : str) (f : fault) : JSONFault :=
  let '(pos, lineno, colno) := locate doc (snd f) 0 1 1 in
  mkJSONFault (fst f) pos lineno colno.

(** [json.loads(doc)].  The limit on the digits of an integer and the limit
    on nesting are not modelled. *)
Definition json_loads (doc : str) : JSONFault + value float :=
  if String.prefix (string_of_chars (map ascii_of_nat [239; 187; 191])) doc
  then inl (json_fault doc ("Unexpected UTF-8 BOM (decode using utf-8-sig)"%string, 0))
  else
    let '(s0, pos0) := skip_ws doc 0 in
    match scan_once (2 * String.length doc + 2) s0 pos0 with
    | inl f => inl (json_fault doc f)
    | inr (v, s1, pos1) =>
        match skip_ws s1 pos1 with
        | (EmptyString, _) => inr v
        | (_, pos2) => inl (json_fault doc ("Extra data"%string, pos2))
        end
    end.

(** *** [json.dumps] and [format] *)

(** The first code point of well-formed UTF-8 text and the text after it. *)
Definition next_code_point (c : ascii) (rest : str) : N * str :=
  let n := N_of_ascii c in
  let tail (b : ascii) : N := (N_of_ascii b - 128)%N in
  match rest with
  | String b1 (String b2 (String b3 r)) =>
      if N.leb 240 n then ((((n - 240) * 64 + tail b1) * 64 + tail b2) * 64 + tail b3, r)%N
      else if N.leb 224 n then (((n - 224) * 64 + tail b1) * 64 + tail b2, String b3 r)%N
      else if N.leb 192 n then ((n - 192) * 64 + tail b1, String b2 (String b3 r))%N
      else (n, rest)
  | String b1 (String b2 r) =>
      if N.leb 224 n then (((n - 224) * 64 + tail b1) * 64 + tail b2, r)%N
      else if N.leb 192 n then ((n - 192) * 64 + tail b1, String b2 r)%N
      else (n, rest)
  | String b1 r =>
      if N.leb 192 n then ((n - 192) * 64 + tail b1, r)%N else (n, rest)
  | EmptyString => (n, rest)
  end.

Definition hex_digit_N (n : N) : ascii := hex_digit (N.to_nat n).

(** The [\uXXXX] escape of a code unit. *)
Definition u_escape (cu : N) : str :=
  ("\u" ++ string_of_chars
             [hex_digit_N (cu / 4096); hex_digit_N ((cu / 256) mod 16);
              hex_digit_N ((cu / 16) mod 16); hex_digit_N (cu mod 16)])%N%string.

(** One character of a JSON string under [ensure_ascii]. *)
Definition json_escape (cp : N) : str :=
  (if N.eqb cp 34 then String (ascii_of_nat 92) dq
   else if N.eqb cp 92 then "\\"
   else if N.eqb cp 10 then "\n"
   else if N.eqb cp 13 then "\r"
   else if N.eqb cp 9 then "\t"
   else if N.eqb cp 8 then "\b"
   else if N.eqb cp 12 then "\f"
   else if between 32 126 cp then String (ascii_of_N cp) EmptyString
   else if N.ltb cp 65536 then u_escape cp
   else u_escape (55296 + (cp - 65536) / 1024) ++ u_escape (56320 + (cp - 65536) mod 1024))%string.

Fixpoint json_escape_all (fuel : nat) (s : str) : str :=
  match fuel, s with
  | S fuel', String c rest =>
      let '(cp, after) := next_code_point c rest in
      (json_escape cp ++ json_escape_all fuel' after)%string
  | _, _ => EmptyString
  end.

Definition json_string (s : str) : str := quoted (json_escape_all (String.length s) s).

Definition float_json (x : float) : str :=
  match x with
  | Literal text => text
  | NaN => "NaN"
  | Infinity negative => if negative then "-Infinity" else "Infinity"
  end%string.

(** [json.dumps(v)]: separators [", "] and [": "], ASCII output. *)
Fixpoint json_dumps (v : value float) : str :=
  match v with
  | VNone => "null"
  | VBool b => if b then "true" else "false"
  | VInt n => dec n
  | VFloat x => float_json x
  | VStr s => json_string s
  | VList items => "[" ++ String.concat ", " (map json_dumps items) ++ "]"
  | VDict d =>
      "{" ++ String.concat ", "
               (map (fun kv => json_string (fst kv) ++ ": " ++ json_dumps (snd kv)) d)
          ++ "}"
  end%string.

Definition float_repr (x : float) : str :=
  match x with
  | Literal text => text
  | NaN => "nan"
  | Infinity negative => if negative then "-inf" else "inf"
  end%string.

(** [repr(v)] *)
Fixpoint repr (v : value float) : str :=
  match v with
  | VNone => "None"
  | VBool b => if b then "True" else "False"
  | VInt n => dec n
  | VFloat x => float_repr x
  | VStr s => repr_str s
  | VList items => "[" ++ String.concat ", " (map repr items) ++ "]"
  | VDict d =>
      "{" ++ String.concat ", " (map (fun kv => repr_str (fst kv) ++ ": " ++ repr (snd kv)) d)
          ++ "}"
  end%string.

(** [format(v)], which is [str(v)]: a [str] as it is, anything else as
    its [repr]. *)
Definition format_value (v : value float) : str :=
  match v with
  | VStr s => s
  | _ => repr v
  end.

(** *** [urlparse] *)

(** The text before and after the first [c], when there is one. *)
Fixpoint partition (c : ascii) (s : str) : option (str * str) :=
  match s with
  | EmptyString => None
  | String x rest =>
      if Ascii.eqb x c then Some (EmptyString, rest)
      else match partition c rest with
           | Some (before, after) => Some (String x before, after)
           | None => None
           end
  end.

(** The text before and from the last [c], when there is one. *)
Fixpoint rpartition (c : ascii) (s : str) : option (str * str) :=
  match s with
  | EmptyString => None
  | String x rest =>
      match rpartition c rest with
      | Some (before, from) => Some (String x before, from)
      | None => if Ascii.eqb x c then Some (EmptyString, s) else None
      end
  end.

Fixpoint remove_chars (unwanted : ascii -> bool) (s : str) : str :=
  match s with
  | EmptyString => EmptyString
  | String c rest =>
      if unwanted c then remove_chars unwanted rest else String c (remove_chars unwanted rest)
  end.

Fixpoint lstrip_c0 (s : str) : str :=
  match s with
  | String c rest => if Nat.leb (code c) 32 then lstrip_c0 rest else s
  | EmptyString => EmptyString
  end.

Fixpoint all_chars (p : ascii -> bool) (s : str) : bool :=
  match s with
  | EmptyString => true
  | String c rest => p c && all_chars p rest
  end.

Definition is_alpha (c : ascii) : bool :=
  in_range 65 90 (code c) || in_range 97 122 (code c).

Definition is_scheme_char (c : ascii) : bool :=
  is_alpha c || is_digit c || Nat.eqb (code c) 43 || Nat.eqb (code c) 45 || Nat.eqb (code c) 46.

(** The network location, up to the first of [/], [?] and [#]. *)
Fixpoint splitnetloc (s : str) : str * str :=
  match s with
  | EmptyString => (EmptyString, EmptyString)
  | String c rest =>
      if Nat.eqb (code c) 47 || Nat.eqb (code c) 63 || Nat.eqb (code c) 35
      then (EmptyString, s)
      else let '(loc, after) := splitnetloc rest in (String c loc, after)
  end.

Definition uses_params : list str :=
  [EmptyString; "ftp"; "hdl"; "prospero"; "http"; "imap"; "https"; "shttp"; "rtsp";
   "rtspu"; "sip"; "sips"; "mms"; "sftp"; "tel"]%string.

Definition splitparams (url : str) : str * str :=
  match rpartition "/" url with
  | Some (before, from) =>
      match partition ";" from with
      | Some (p, q) => ((before ++ p)%string, q)
      | None => (url, EmptyString)
      end
  | None =>
      match partition ";" url with
      | Some (p, q) => (p, q)
      | None => (url, EmptyString)
      end
  end.

(** [urlparse(url)].  A bracket without its partner in the network location
    raises, as does text before or after a bracketed host; the address
    inside the brackets and the NFKC check of a non-ASCII location are not
    modelled. *)
Definition urlparse (url : str) : exn + ParseResult :=
  let url := remove_chars (fun c => Nat.eqb (code c) 9 || Nat.eqb (code c) 13
                                    || Nat.eqb (code c) 10) (lstrip_c0 url) in
  let '(scheme, url) :=
    match url, partition ":" url with
    | String c0 _, Some (String c0' before, after) =>
        if is_alpha c0 && all_chars is_scheme_char (String c0' before)
        then (lower (String c0' before), after)
        else (EmptyString, url)
    | _, _ => (EmptyString, url)
    end in
  let '(netloc, url) :=
    match url with
    | String "/" (String "/" rest) => splitnetloc rest
    | _ => (EmptyString, url)
    end in
  let opens := contains "[" netloc in
  let closes := contains "]" netloc in
  let host_part :=
    match rpartition "@" netloc with
    | Some (_, String _ host) => host
    | _ => netloc
    end in
  let bad_brackets :=
    xorb opens closes
    || (opens && closes
        && match partition "[" host_part with
           | Some (EmptyString, bracketed) =>
               match partition "]" bracketed with
               | Some (_, String c _) => negb (Nat.eqb (code c) 58)
               | _ => false
               end
           | Some (_, _) => true
           | None => false
           end) in
  if bad_brackets then inl (ValueError "Invalid IPv6 URL")
  else
    let '(url, fragment) :=
      match partition "#" url with
      | Some (p, q) => (p, q)
      | None => (url, EmptyString)
      end in
    let '(url, query) :=
      match partition "?" url with
      | Some (p, q) => (p, q)
      | None => (url, EmptyString)
      end in
    let '(url, params) :=
      if existsb (String.eqb scheme) uses_params && contains ";" url
      then splitparams url else (url, EmptyString) in
    inr (mkParseResult scheme netloc url params query fragment).

(** [socket.getfqdn]: the name of this host. *)
Definition getfqdn (host : str) : str := "localhost".

(** A port of the range the system hands out. *)
Definition free_port : Z := 49152.

(** A process with 2 GiB to spare. *)
Definition allocates (size : Z) : bool := Z.leb size 2147483648.

Definition lib : PyLib float :=
  mkPyLib float urlparse int_of_str utf8_decode json_loads json_dumps format_value getfqdn
    free_port allocates eq_refl eq_refl eq_refl.

End Sample.

(** ** Sample requests *)

Module Requests.

Definition now : Sample.float := Sample.Literal "1700000000.5".

Definition fields (announced : str) : Message :=
  [("Host", "localhost:8081");
   ("Content-Type", "application/json");
   ("content-length", announced)].

Definition post (hs : Message) (body : str) : Request Sample.float :=
  mkRequest POST "POST /api/data HTTP/1.1" "/api/data" hs (encode_utf8 body) now.

(** The body [{"id": "txn-42"}], 16 bytes. *)
Definition txn42 : str := "{" ++ quoted "id" ++ ": " ++ quoted "txn-42" ++ "}".

(** The body [{"name": "x"}], 13 bytes. *)
Definition unnamed : str := "{" ++ quoted "name" ++ ": " ++ quoted "x" ++ "}".

Definition post_txn42 := post (fields "16") txn42.
Definition post_unnamed := post (fields "13") unnamed.
Definition post_not_json := post (fields "8") "not-json".
Definition post_list := post (fields "2") "[]".
(** Announces 5 bytes; the client ends the stream after 2. *)
Definition post_short := post (fields "5") "{}".
Definition post_no_length := post [("Host", "localhost:8081")] txn42.
Definition post_bad_length := post (fields "abc") txn42.
(** The request line [POST http://[ HTTP/1.1]. *)
Definition post_bad_path : Request Sample.float :=
  mkRequest POST "POST http://[ HTTP/1.1" "http://[" (fields "16") (encode_utf8 txn42) now.
(** Announces -1 bytes. *)
Definition post_minus_one := post (fields "-1") txn42.
(** Announces -5 bytes. *)
Definition post_minus_five := post (fields "-5") txn42.

(** The body [{"id": "\ud800"}], 16 bytes: the id is the string of one
    lone surrogate. *)
Definition surrogate_id : str := "{" ++ quoted "id" ++ ": " ++ quoted "\ud800" ++ "}".
Definition post_surrogate := post (fields "16") surrogate_id.

(** The body [{"id": "txn-42", "amount": 7}]. *)
Definition txn42_amount : str :=
  "{" ++ quoted "id" ++ ": " ++ quoted "txn-42" ++ ", " ++ quoted "amount" ++ ": 7}".

Definition get_health : Request Sample.float :=
  mkRequest GET "GET /health HTTP/1.1" "/health" [("Host", "localhost:8081")] [] now.

(** The world in which the method for [r] is called, on a new connection
    of the listener [srv]. *)
Definition arrived (srv : HTTPServer) (r : Request Sample.float) : World Sample.float :=
  snd (parse_request r (connect srv [] (request_time r))).

Definition aws : HTTPServer := aws_listener Sample.lib.
Definition azure : HTTPServer := azure_listener Sample.lib.

End Requests.

(** ** Properties *)

(** The ways [read] can go. *)
Ltac read_cases :=
  unfold rfile_read;
  repeat match goal with
         | |- context [if ?c then _ else _] => destruct c
         end.

(** The way [read] goes for a size that is known. *)
Ltac read_case :=
  unfold rfile_read, PY_SSIZE_T_MAX;
  repeat match goal with
         | |- context [?a <? ?b] => destruct (Z.ltb_spec a b); try lia
         | |- context [?a =? ?b] => destruct (Z.eqb_spec a b); try lia
         end.

Section Properties.
Context {F : Type} (L : PyLib F).

(** *** How the pieces of [do_POST] act on the world *)

Lemma rfile_read_frame (size : Z) (w : World F) :
  let w' := snd (rfile_read L size w) in
  self w' = self w /\ wfile w' = wfile w /\ stdout w' = stdout w
  /\ slept w' = slept w /\ clock w' = clock w.
Proof.
  read_cases; cbn; auto.
Qed.

(** A size from 0 to [2^63 - 34] for which there is memory: the first
    [size] bytes of the stream are read. *)
Lemma rfile_read_some (size : Z) (w : World F) :
  0 <= size <= PY_SSIZE_T_MAX - 33 ->
  allocates L size = true ->
  rfile_read L size w
  = (inr (firstn (Z.to_nat size) (rfile w)), set_rfile (skipn (Z.to_nat size) (rfile w)) w).
Proof.
  unfold PY_SSIZE_T_MAX. intros Hsize Hmem. read_case. rewrite Hmem. reflexivity.
Qed.

(** A raise of [read] leaves the world as it was. *)
Lemma rfile_read_raise (size : Z) (w : World F) (e : exn) :
  fst (rfile_read L size w) = inl e -> snd (rfile_read L size w) = w.
Proof.
  read_cases; cbn [fst snd]; try reflexivity; discriminate.
Qed.

Lemma read_body_eq (w : World F) :
  read_body L w =
  match urlparse L (path (self w)) with
  | inl e => (inl e, w)
  | inr _ =>
      match content_length_of L (headers (self w)) with
      | inl e => (inl e, w)
      | inr size => rfile_read L size w
      end
  end.
Proof.
  unfold read_body, bind, gets, lift.
  destruct (urlparse L (path (self w))); [reflexivity |].
  destruct (content_length_of L (headers (self w))); reflexivity.
Qed.

(** Reading the body touches nothing but the request stream. *)
Lemma read_body_frame (w : World F) :
  let w' := snd (read_body L w) in
  self w' = self w /\ wfile w' = wfile w /\ stdout w' = stdout w
  /\ slept w' = slept w /\ clock w' = clock w.
Proof.
  rewrite read_body_eq.
  destruct (urlparse L (path (self w))); [cbn; auto |].
  destruct (content_length_of L (headers (self w))); [cbn; auto |].
  apply rfile_read_frame.
Qed.

(** The counter plays no part in reading the body. *)
Lemma read_body_counted (w : World F) :
  read_body L (count_request w) =
  (fst (read_body L w), count_request (snd (read_body L w))).
Proof.
  rewrite !read_body_eq. cbn [count_request set_self self path headers set_request_count].
  destruct (urlparse L (path (self w))); [reflexivity |].
  destruct (content_length_of L (headers (self w))); [reflexivity |].
  read_cases; reflexivity.
Qed.

Lemma do_POST_eq (w : World F) :
  do_POST L w =
  match fst (read_body L w) with
  | inl e => (inl e, count_request (snd (read_body L w)))
  | inr body =>
      try_except (try_block L body) (except_block L) (count_request (snd (read_body L w)))
  end.
Proof.
  unfold do_POST, bind, modify.
  rewrite read_body_counted.
  destruct (fst (read_body L w)); reflexivity.
Qed.

(** The [try] block on a body that decodes to a dict whose id the console
    can show. *)
Lemma try_dict (w : World F) (body : bytes) (d : list (str * value F)) :
  decode_body L body = inr (VDict d) ->
  console_fault (shown_id d) = None ->
  try_except (try_block L body) (except_block L) w =
  (inr tt,
   mkWorld (self w) (rfile w)
     (wfile w ++ json_response L 200
        (VDict [("success", VBool true);
                ("message", VStr ("Data saved successfully to "
                                  ++ server_name (server (self w))));
                ("id", dict_get d "id" VNone);
                ("timestamp", VFloat (clock w))]))
     (stdout w ++ [received_before (self w) ++ format_value L (shown_id d)])
     (slept w ++ [0.1%Q])
     (clock w)).
Proof.
  unfold shown_id. intros Hd Hshown.
  unfold try_except, try_block, bind, lift, print_field. rewrite Hd.
  cbn [getattr_get gets]. rewrite Hshown. cbn.
  unfold json_response. rewrite <- !app_assoc. reflexivity.
Qed.



(** The [try] block on a body that decodes to a dict whose id the console
    refuses: [print] raises at line 30, before anything is printed, slept or
    sent. *)
Lemma try_not_shown (w : World F) (body : bytes) (d : list (str * value F))
    (start stop : nat) :
  decode_body L body = inr (VDict d) ->
  console_fault (shown_id d) = Some (start, stop) ->
  try_except (try_block L body) (except_block L) w
  = except_block L (not_shown L (self w) (shown_id d) start stop) w.
Proof.
  unfold shown_id. intros Hd Hshown.
  unfold try_except, try_block, bind, lift, print_field. rewrite Hd.
  cbn [getattr_get gets]. rewrite Hshown. reflexivity.
Qed.

(** The [except] clause, entered with the exception [e]. *)
Lemma except_block_eq (w : World F) (e : exn) :
  except_block L e w =
  (inr tt,
   mkWorld (self w) (rfile w)
     (wfile w ++ json_response L 500 (VDict [("error", VStr (str_exn e))]))
     (stdout w ++ ["[" ++ server_name (server (self w))
                   ++ "] Error processing request: " ++ str_exn e])
     (slept w)
     (clock w)).
Proof.
  unfold except_block, wfile_write, end_headers, send_header, send_response,
    log_request, log_message, emit, print, gets, modify, ret, bind, set_wfile, set_stdout.
  cbn [self rfile wfile stdout slept clock].
  unfold json_response. rewrite <- !app_assoc. reflexivity.
Qed.

(** The [try] block on a body whose decoding raises. *)
Lemma try_undecodable (w : World F) (body : bytes) (e : exn) :
  decode_body L body = inl e ->
  try_except (try_block L body) (except_block L) w = except_block L e w.
Proof.
  intros Hd.
  unfold try_except, try_block, bind, lift. rewrite Hd. reflexivity.
Qed.

(** The [try] block on a body that decodes to something without [get]. *)
Lemma try_no_get (w : World F) (body : bytes) (v : value F) (e : exn) :
  decode_body L body = inr v ->
  getattr_get v = inl e ->
  try_except (try_block L body) (except_block L) w = except_block L e w.
Proof.
  intros Hd Hg.
  unfold try_except, try_block, bind, lift. rewrite Hd. cbn. rewrite Hg. reflexivity.
Qed.

(** What decoding can raise has a text that is never empty. *)
Lemma append_nonempty (a b : str) : b <> EmptyString -> (a ++ b)%string <> EmptyString.
Proof.
  intros Hb. destruct a as [| c a']; cbn; [exact Hb | discriminate].
Qed.

Lemma decode_error_nonempty (body : bytes) (e : exn) :
  decode_body L body = inl e -> str_exn e <> EmptyString.
Proof.
  unfold decode_body, bytes_decode, loads.
  destruct (utf8_decode L body) as [f | text].
  - intros H; inversion H; subst; clear H. cbn [str_exn].
    destruct (_ && _); discriminate.
  - destruct (json_loads L text) as [f | data]; [| discriminate].
    intros H; inversion H; subst; clear H. cbn [str_exn].
    apply append_nonempty. discriminate.
Qed.

(** A value that is no dict has no [get]. *)
Lemma getattr_get_no_dict (v : value F) :
  (forall d, v <> VDict d) ->
  getattr_get v
  = inl (AttributeError ("'" ++ type_name v ++ "' object has no attribute 'get'")).
Proof.
  intros Hv. destruct v; try reflexivity. exfalso. apply (Hv items). reflexivity.
Qed.

(** The [try] statement ends in one of two ways: through the [except]
    clause, or past the last write of the success response. *)
Lemma try_cases (w : World F) (body : bytes) :
  (exists e, try_except (try_block L body) (except_block L) w = except_block L e w)
  \/ (exists d, decode_body L body = inr (VDict d) /\ console_fault (shown_id d) = None).
Proof.
  destruct (decode_body L body) as [e | v] eqn:Hd.
  - left. exists e. exact (try_undecodable _ _ _ Hd).
  - destruct (getattr_get v) as [e | get] eqn:Hg.
    + left. exists e. exact (try_no_get _ _ _ _ Hd Hg).
    + destruct v; try discriminate.
      destruct (console_fault (shown_id items)) as [[start stop] |] eqn:Hshown.
      * left. eexists. exact (try_not_shown _ _ _ _ _ Hd Hshown).
      * right. exists items. split; [reflexivity | exact Hshown].
Qed.

(** Neither way touches the instance or the request stream. *)
Lemma try_frame (w : World F) (body : bytes) :
  let w' := snd (try_except (try_block L body) (except_block L) w) in
  self w' = self w /\ rfile w' = rfile w.
Proof.
  destruct (try_cases w body) as [[e He] | (d & Hd & Hshown)].
  - rewrite He, except_block_eq. split; reflexivity.
  - rewrite (try_dict _ _ _ Hd Hshown). split; reflexivity.
Qed.

(** [do_POST] adds 1 to the counter and leaves the other attributes. *)
Lemma do_POST_self (w : World F) :
  self (snd (do_POST L w)) = set_request_count (request_count (self w) + 1) (self w).
Proof.
  destruct (read_body_frame w) as (Hself & _).
  rewrite do_POST_eq.
  destruct (fst (read_body L w)) as [e | body].
  - cbn [snd self count_request set_self]. rewrite Hself. reflexivity.
  - destruct (try_frame (count_request (snd (read_body L w))) body) as (Hs & _).
    rewrite Hs. cbn [self count_request set_self]. rewrite Hself. reflexivity.
Qed.

(** [do_GET] is four writes and nothing else. *)
Lemma do_GET_eq (w : World F) :
  do_GET L w
  = (inr tt,
     set_wfile (wfile w ++ json_response L 200
                  (VDict [("status", VStr "healthy");
                          ("service", VStr (server_name (server (self w))));
                          ("timestamp", VFloat (clock w))])) w).
Proof.
  unfold do_GET, wfile_write, end_headers, send_header, send_response, time_time,
    log_request, log_message, emit, gets, modify, ret, bind, set_wfile.
  cbn [self rfile wfile stdout slept clock].
  unfold json_response. rewrite <- !app_assoc. reflexivity.
Qed.

(** What [do_POST] sends on a connection that was sent nothing yet. *)
Lemma do_POST_sent (w : World F) :
  wfile w = [] ->
  carries_label L (server_name (server (self w))) (wfile (snd (do_POST L w))).
Proof.
  intros Hnew.
  destruct (read_body_frame w) as (Hself & Hwfile & _ & _ & Hclock).
  rewrite do_POST_eq.
  destruct (fst (read_body L w)) as [e | body].
  - left. cbn [snd wfile count_request set_self]. rewrite Hwfile. exact Hnew.
  - destruct (try_cases (count_request (snd (read_body L w))) body)
      as [[e He] | (d & Hd & Hshown)].
    + right; left. exists e. rewrite He, except_block_eq.
      cbn [snd wfile count_request set_self]. rewrite Hwfile, Hnew. reflexivity.
    + right; right; left.
      exists (dict_get d "id" VNone), (clock w).
      rewrite (try_dict _ _ _ Hd Hshown).
      cbn [snd wfile self clock count_request set_self set_request_count server].
      rewrite Hself, Hwfile, Hclock, Hnew. reflexivity.
Qed.

(** One request leaves the server as it found it, and what it sends
    carries the server's label. *)
Lemma finish_request_label (srv : HTTPServer) (console : list str) (r : Request F) :
  server (self (snd (finish_request L srv console r))) = srv
  /\ carries_label L (server_name srv) (wfile (snd (finish_request L srv console r))).
Proof.
  unfold finish_request, handle_one_request, bind, parse_request, modify, connect.
  cbn [self rfile wfile stdout slept clock MockEndpointHandler_init request_count server].
  destruct (command r); cbn [dispatch].
  - rewrite do_GET_eq. cbn [snd self wfile set_wfile server].
    split; [reflexivity |].
    right; right; right. exists (request_time r). reflexivity.
  - split.
    + rewrite do_POST_self. reflexivity.
    + apply (do_POST_sent
               (mkWorld (mkHandler 0 srv (request_line r) (request_target r)
                                   (request_headers r))
                        (request_rest r) [] console [] (request_time r))).
      reflexivity.
Qed.

Lemma serve_forever_label (srv : HTTPServer) (rs : list (Request F)) :
  forall console,
    fst (fst (serve_forever L srv console rs)) = srv
    /\ Forall (carries_label L (server_name srv)) (snd (serve_forever L srv console rs)).
Proof.
  induction rs as [| r rest IH]; intros console.
  - split; [reflexivity | constructor].
  - cbn [serve_forever].
    destruct (finish_request_label srv console r) as (Hsrv & Hsent).
    rewrite Hsrv.
    specialize (IH (stdout (snd (finish_request L srv console r)))).
    destruct (serve_forever L srv (stdout (snd (finish_request L srv console r))) rest)
      as [[srv' console'] sent].
    cbn [fst snd] in *.
    destruct IH as (IHsrv & IHsent).
    split; [exact IHsrv | constructor; assumption].
Qed.

(** *** The claims about [do_POST] *)

(** C1, as amended.  A POST whose body, the bytes the handler reads at
    line 26, is a JSON object with a field id = X is answered with status
    200 and the record success = true, message = Data saved successfully to
    <label>, id = X, timestamp = the clock; X is any JSON value but a string
    that holds a lone surrogate, which the console refuses at line 30. *)
Theorem post_echoes_id (w : World F) (body : bytes) (d : list (str * value F))
    (X : value F) :
  fst (read_body L w) = inr body ->
  decode_body L body = inr (VDict d) ->
  dict_lookup d "id" = Some X ->
  console_fault X = None ->
  fst (do_POST L w) = inr tt
  /\ wfile (snd (do_POST L w))
     = (wfile w ++ json_response L 200
         (VDict [("success", VBool true);
                 ("message", VStr ("Data saved successfully to "
                                   ++ server_name (server (self w))));
                 ("id", X);
                 ("timestamp", VFloat (clock w))]))%list.
Proof.
  intros Hbody Hdict Hid Hshown.
  assert (Hconsole : console_fault (shown_id d) = None)
    by (unfold shown_id, dict_get; rewrite Hid; exact Hshown).
  destruct (read_body_frame w) as (Hself & Hwfile & _ & _ & Hclock).
  rewrite do_POST_eq, Hbody, (try_dict _ _ _ Hdict Hconsole).
  cbn [fst snd wfile self clock count_request set_self set_request_count server].
  unfold dict_get. rewrite Hid, Hself, Hwfile, Hclock.
  split; reflexivity.
Qed.

(** C5.  A POST whose body is a JSON object without the field id is
    answered with status 200 and id = null in the record. *)
Theorem post_without_id_gets_null (w : World F) (body : bytes)
    (d : list (str * value F)) :
  fst (read_body L w) = inr body ->
  decode_body L body = inr (VDict d) ->
  dict_lookup d "id" = None ->
  fst (do_POST L w) = inr tt
  /\ wfile (snd (do_POST L w))
     = (wfile w ++ json_response L 200
         (VDict [("success", VBool true);
                 ("message", VStr ("Data saved successfully to "
                                   ++ server_name (server (self w))));
                 ("id", VNone);
                 ("timestamp", VFloat (clock w))]))%list.
Proof.
  intros Hbody Hdict Hid.
  assert (Hconsole : console_fault (shown_id d) = None)
    by (unfold shown_id, dict_get; rewrite Hid; reflexivity).
  destruct (read_body_frame w) as (Hself & Hwfile & _ & _ & Hclock).
  rewrite do_POST_eq, Hbody, (try_dict _ _ _ Hdict Hconsole).
  cbn [fst snd wfile self clock count_request set_self set_request_count server].
  unfold dict_get. rewrite Hid, Hself, Hwfile, Hclock.
  split; reflexivity.
Qed.

(** C2.  A POST whose body raises [e] while it is decoded (line 29) is
    answered with status 500 and the record with the single field error =
    str(e); that text is not empty; the four writes of the error response
    are all that is sent, so nothing of the success response is. *)
Theorem post_undecodable_gets_500 (w : World F) (body : bytes) (e : exn) :
  fst (read_body L w) = inr body ->
  decode_body L body = inl e ->
  fst (do_POST L w) = inr tt
  /\ wfile (snd (do_POST L w))
     = (wfile w ++ json_response L 500 (VDict [("error", VStr (str_exn e))]))%list
  /\ str_exn e <> EmptyString.
Proof.
  intros Hbody Hraise.
  destruct (read_body_frame w) as (_ & Hwfile & _).
  rewrite do_POST_eq, Hbody, (try_undecodable _ _ _ Hraise), except_block_eq.
  cbn [fst snd wfile count_request set_self]. rewrite Hwfile.
  repeat split. exact (decode_error_nonempty _ _ Hraise).
Qed.

(** C8.  A POST whose body is valid JSON but no object (a list, a number,
    a string, a boolean, null) is answered with status 500 and the same
    error record as malformed JSON, its text being the [AttributeError]
    that [data.get] raised inside the [try]. *)
Theorem post_non_object_gets_500 (w : World F) (body : bytes) (v : value F) :
  fst (read_body L w) = inr body ->
  decode_body L body = inr v ->
  (forall d, v <> VDict d) ->
  fst (do_POST L w) = inr tt
  /\ wfile (snd (do_POST L w))
     = (wfile w ++ json_response L 500
         (VDict [("error",
                  VStr (str_exn (AttributeError
                                   ("'" ++ type_name v
                                    ++ "' object has no attribute 'get'"))))]))%list.
Proof.
  intros Hbody Hvalue Hno.
  destruct (read_body_frame w) as (_ & Hwfile & _).
  rewrite do_POST_eq, Hbody.
  rewrite (try_no_get _ _ _ _ Hvalue (getattr_get_no_dict _ Hno)), except_block_eq.
  cbn [fst snd wfile count_request set_self]. rewrite Hwfile.
  split; reflexivity.
Qed.

(** C9.  A POST whose Content-Length header is present and is refused by
    [int] sends no response: the exception leaves [do_POST] (line 25 is
    outside the [try]), and neither the 200 nor the 500 record is written;
    nothing is printed either. *)
Theorem post_bad_length_sends_nothing (w : World F) (field : str) (e : exn) :
  Message_get (headers (self w)) "Content-Length" = Some field ->
  int_of_str L field = inl e ->
  (exists raised, fst (do_POST L w) = inl raised)
  /\ (forall parsed, urlparse L (path (self w)) = inr parsed -> fst (do_POST L w) = inl e)
  /\ wfile (snd (do_POST L w)) = wfile w
  /\ stdout (snd (do_POST L w)) = stdout w.
Proof.
  intros Hfield Hint.
  assert (Hlen : content_length_of L (headers (self w)) = inl e)
    by (unfold content_length_of; rewrite Hfield; exact Hint).
  rewrite do_POST_eq, read_body_eq, Hlen.
  destruct (urlparse L (path (self w))) as [e0 | parsed]; cbn.
  - repeat split; [exists e0; reflexivity | discriminate].
  - repeat split; [exists e; reflexivity].
Qed.

(** C10.  Every call of [do_POST] adds exactly 1 to the counter of the
    instance, whatever comes of the call (a decode that fails, or a raise,
    included), and leaves the other attributes of the instance - the
    server, the request line, the path, the headers - as they were; a call
    of [do_GET] leaves the counter and every other attribute as they were.
    The increment comes first: the call that raises before the [try] has
    counted the request, and the [try] statement that decodes the body runs
    in a world whose counter is already 1 higher. *)
Theorem counter_moves_only_on_post (w : World F) :
  request_count (self (snd (do_POST L w))) = request_count (self w) + 1
  /\ server (self (snd (do_POST L w))) = server (self w)
  /\ requestline (self (snd (do_POST L w))) = requestline (self w)
  /\ path (self (snd (do_POST L w))) = path (self w)
  /\ headers (self (snd (do_POST L w))) = headers (self w)
  /\ request_count (self (snd (do_GET L w))) = request_count (self w)
  /\ self (snd (do_GET L w)) = self w
  /\ match fst (read_body L w) with
     | inr body =>
         exists counted : World F,
           do_POST L w = try_except (try_block L body) (except_block L) counted
           /\ request_count (self counted) = request_count (self w) + 1
     | inl e => fst (do_POST L w) = inl e
     end.
Proof.
  destruct (read_body_frame w) as (Hself & _).
  rewrite do_POST_self, do_GET_eq.
  cbn [snd self set_wfile set_request_count request_count server requestline path headers].
  repeat (split; [reflexivity |]).
  rewrite do_POST_eq.
  destruct (fst (read_body L w)) as [e | body]; [reflexivity |].
  exists (count_request (snd (read_body L w))).
  split; [reflexivity |].
  cbn [self count_request set_self set_request_count request_count].
  rewrite Hself. reflexivity.
Qed.

(** *** The claim about [do_GET] *)


(** *** What the claims leave open *)

(** X1.  A path that [urlparse] refuses (line 22, outside the [try]) ends
    the call before anything is read or sent; the request is counted. *)
Lemma post_bad_path_sends_nothing (w : World F) (e : exn) :
  urlparse L (path (self w)) = inl e ->
  do_POST L w = (inl e, count_request w).
Proof.
  intros Hurl. rewrite do_POST_eq, read_body_eq, Hurl. reflexivity.
Qed.

(** X2.  An announced length of -1 makes the handler read the stream to
    its end. *)
Lemma post_minus_one_reads_all (w : World F) (parsed : ParseResult) :
  urlparse L (path (self w)) = inr parsed ->
  content_length_of L (headers (self w)) = inr (-1) ->
  read_body L w = (inr (rfile w), set_rfile [] w).
Proof.
  intros Hurl Hlen. rewrite read_body_eq, Hurl, Hlen. reflexivity.
Qed.

(** The success path asks for one sleep of 0.1 s; [do_GET] for none. *)
Lemma post_sleeps_once (w : World F) (body : bytes) (d : list (str * value F)) :
  fst (read_body L w) = inr body ->
  decode_body L body = inr (VDict d) ->
  console_fault (shown_id d) = None ->
  slept (snd (do_POST L w)) = (slept w ++ [0.1%Q])%list
  /\ slept (snd (do_GET L w)) = slept w.
Proof.
  intros Hbody Hdict Hshown.
  destruct (read_body_frame w) as (_ & _ & _ & Hslept & _).
  rewrite do_POST_eq, Hbody, (try_dict _ _ _ Hdict Hshown), do_GET_eq.
  cbn [snd slept count_request set_self set_wfile]. rewrite Hslept.
  split; reflexivity.
Qed.

(** *** The claims about length, logging and labels *)

(** The empty input: [bytes.decode] gives the empty text, which
    [json.loads] refuses. *)
Lemma decode_body_empty :
  decode_body L [] = inl (JSONDecodeError EmptyString (mkJSONFault "Expecting value" 0 1 1)).
Proof.
  unfold decode_body, bytes_decode, loads.
  rewrite (utf8_decode_empty L), (json_loads_empty L). reflexivity.
Qed.

(** C6, as amended.  When [urlparse] accepts the path and the
    Content-Length header is absent or read by [int] as a [size] from 0 to
    [2^63 - 34] for which the process has memory, the handler asks the
    stream for [size] bytes and decodes exactly the bytes it gets: the first
    [size] bytes left in the stream, which are [size] bytes when the stream
    holds that many.  When the header is absent [size] is 0, no byte is
    read, the decode of the empty input raises, and the answer is the 500
    error record with the text of that exception. *)
Theorem post_reads_announced_length (w : World F) (parsed : ParseResult) (size : Z) :
  urlparse L (path (self w)) = inr parsed ->
  content_length_of L (headers (self w)) = inr size ->
  0 <= size <= PY_SSIZE_T_MAX - 33 ->
  allocates L size = true ->
  let body := firstn (Z.to_nat size) (rfile w) in
  let left := skipn (Z.to_nat size) (rfile w) in
  fst (read_body L w) = inr body
  /\ rfile (snd (do_POST L w)) = left
  /\ (size <= Z.of_nat (List.length (rfile w)) -> Z.of_nat (List.length body) = size)
  /\ do_POST L w
     = try_except (try_block L body) (except_block L) (count_request (set_rfile left w))
  /\ (Message_get (headers (self w)) "Content-Length" = None ->
      size = 0 /\ body = [] /\ left = rfile w
      /\ decode_body L body
         = inl (JSONDecodeError EmptyString (mkJSONFault "Expecting value" 0 1 1))
      /\ fst (do_POST L w) = inr tt
      /\ wfile (snd (do_POST L w))
         = (wfile w ++ json_response L 500
              (VDict [("error", VStr "Expecting value: line 1 column 1 (char 0)")]))%list).
Proof.
  intros Hurl Hlen Hsize Hmem body left.
  assert (Hread : read_body L w = (inr body, set_rfile left w)).
  { rewrite read_body_eq, Hurl, Hlen. exact (rfile_read_some size w Hsize Hmem). }
  assert (Hpost : do_POST L w
                  = try_except (try_block L body) (except_block L)
                      (count_request (set_rfile left w))).
  { rewrite do_POST_eq, Hread. reflexivity. }
  split; [rewrite Hread; reflexivity |].
  split.
  { rewrite Hpost.
    destruct (try_frame (count_request (set_rfile left w)) body) as (_ & Hr).
    rewrite Hr. reflexivity. }
  split.
  { intros Hfits. unfold body. rewrite length_firstn. lia. }
  split; [exact Hpost |].
  intros Habsent.
  unfold content_length_of in Hlen. rewrite Habsent in Hlen.
  assert (size = 0) by congruence. subst size.
  split; [reflexivity |].
  split; [reflexivity |].
  split; [reflexivity |].
  change body with (@nil Byte.byte).
  split; [exact decode_body_empty |].
  rewrite Hpost. change body with (@nil Byte.byte).
  rewrite (try_undecodable _ _ _ decode_body_empty), except_block_eq.
  split; reflexivity.
Qed.


(** C4.  The listener the main block binds to port 8081 is labelled
    AWS-API and the one it binds to port 8082 Azure-API.  Whatever requests
    a listener serves, its server object comes out unchanged, and what each
    connection was sent is nothing, the error record (which has no label),
    or a success or health record with that label. *)
Theorem listener_labels_are_fixed (console : list str) (rs : list (Request F)) :
  (server_port (aws_listener L) = 8081
   /\ server_name (aws_listener L) = "AWS-API"
   /\ fst (fst (serve_forever L (aws_listener L) console rs)) = aws_listener L
   /\ Forall (carries_label L "AWS-API") (snd (serve_forever L (aws_listener L) console rs)))
  /\ (server_port (azure_listener L) = 8082
      /\ server_name (azure_listener L) = "Azure-API"
      /\ fst (fst (serve_forever L (azure_listener L) console rs)) = azure_listener L
      /\ Forall (carries_label L "Azure-API")
           (snd (serve_forever L (azure_listener L) console rs))).
Proof.
  split.
  - destruct (serve_forever_label (aws_listener L) rs console) as (Hsrv & Hsent).
    repeat split; [exact Hsrv | exact Hsent].
  - destruct (serve_forever_label (azure_listener L) rs console) as (Hsrv & Hsent).
    repeat split; [exact Hsrv | exact Hsent].
Qed.

End Properties.

(** ** The theorems at work on the sample requests *)

Module Runs.
Import Requests.

(** POST [{"id": "txn-42"}] to the listener on port 8081. *)
Lemma post_echoes_id_witness :
  fst (do_POST Sample.lib (arrived aws post_txn42)) = inr tt
  /\ wfile (snd (do_POST Sample.lib (arrived aws post_txn42)))
     = json_response Sample.lib 200
         (VDict [("success", VBool true);
                 ("message", VStr "Data saved successfully to AWS-API");
                 ("id", VStr "txn-42");
                 ("timestamp", VFloat now)]).
Proof.
  assert (Hbody : fst (read_body Sample.lib (arrived aws post_txn42))
                  = inr (encode_utf8 txn42)) by (vm_compute; reflexivity).
  assert (Hdict : decode_body Sample.lib (encode_utf8 txn42)
                  = inr (VDict [("id", VStr "txn-42")])) by (vm_compute; reflexivity).
  assert (Hshown : @console_fault Sample.float (VStr "txn-42") = None)
    by (vm_compute; reflexivity).
  exact (post_echoes_id Sample.lib _ _ _ (VStr "txn-42") Hbody Hdict eq_refl Hshown).
Defined.

(** POST [{"name": "x"}] to the listener on port 8082. *)
Lemma post_without_id_gets_null_witness :
  fst (do_POST Sample.lib (arrived azure post_unnamed)) = inr tt
  /\ wfile (snd (do_POST Sample.lib (arrived azure post_unnamed)))
     = json_response Sample.lib 200
         (VDict [("success", VBool true);
                 ("message", VStr "Data saved successfully to Azure-API");
                 ("id", VNone);
                 ("timestamp", VFloat now)]).
Proof.
  assert (Hbody : fst (read_body Sample.lib (arrived azure post_unnamed))
                  = inr (encode_utf8 unnamed)) by (vm_compute; reflexivity).
  assert (Hdict : decode_body Sample.lib (encode_utf8 unnamed)
                  = inr (VDict [("name", VStr "x")])) by (vm_compute; reflexivity).
  exact (post_without_id_gets_null Sample.lib _ _ _ Hbody Hdict eq_refl).
Defined.

(** POST [not-json] to the listener on port 8082. *)
Lemma post_undecodable_gets_500_witness :
  fst (do_POST Sample.lib (arrived azure post_not_json)) = inr tt
  /\ wfile (snd (do_POST Sample.lib (arrived azure post_not_json)))
     = json_response Sample.lib 500
         (VDict [("error", VStr "Expecting value: line 1 column 1 (char 0)")])
  /\ "Expecting value: line 1 column 1 (char 0)" <> EmptyString.
Proof.
  assert (Hbody : fst (read_body Sample.lib (arrived azure post_not_json))
                  = inr (encode_utf8 "not-json")) by (vm_compute; reflexivity).
  assert (Hraise : decode_body Sample.lib (encode_utf8 "not-json")
                   = inl (JSONDecodeError "not-json" (mkJSONFault "Expecting value" 0 1 1)))
    by (vm_compute; reflexivity).
  exact (post_undecodable_gets_500 Sample.lib _ _ _ Hbody Hraise).
Defined.

(** POST [[]] to the listener on port 8081. *)
Lemma post_non_object_gets_500_witness :
  fst (do_POST Sample.lib (arrived aws post_list)) = inr tt
  /\ wfile (snd (do_POST Sample.lib (arrived aws post_list)))
     = json_response Sample.lib 500
         (VDict [("error", VStr "'list' object has no attribute 'get'")]).
Proof.
  assert (Hbody : fst (read_body Sample.lib (arrived aws post_list))
                  = inr (encode_utf8 "[]")) by (vm_compute; reflexivity).
  assert (Hvalue : decode_body Sample.lib (encode_utf8 "[]") = inr (VList []))
    by (vm_compute; reflexivity).
  assert (Hno : forall d, @VList Sample.float [] <> VDict d) by (intros d; discriminate).
  exact (post_non_object_gets_500 Sample.lib _ _ _ Hbody Hvalue Hno).
Defined.

(** POST with [Content-Length: abc]. *)
Lemma post_bad_length_sends_nothing_witness :
  (exists raised, fst (do_POST Sample.lib (arrived aws post_bad_length)) = inl raised)
  /\ (forall parsed,
        urlparse Sample.lib "/api/data" = inr parsed ->
        fst (do_POST Sample.lib (arrived aws post_bad_length))
        = inl (ValueError "invalid literal for int() with base 10: 'abc'"))
  /\ wfile (snd (do_POST Sample.lib (arrived aws post_bad_length))) = []
  /\ stdout (snd (do_POST Sample.lib (arrived aws post_bad_length))) = [].
Proof.
  assert (Hfield : Message_get (headers (self (arrived aws post_bad_length)))
                     "Content-Length" = Some "abc") by (vm_compute; reflexivity).
  assert (Hint : int_of_str Sample.lib "abc"
                 = inl (ValueError "invalid literal for int() with base 10: 'abc'"))
    by (vm_compute; reflexivity).
  exact (post_bad_length_sends_nothing Sample.lib _ _ _ Hfield Hint).
Defined.

(** POST [{"id": "txn-42"}] with [Content-Length: 16]: 16 bytes are read. *)
Lemma post_reads_announced_length_witness :
  fst (read_body Sample.lib (arrived aws post_txn42)) = inr (encode_utf8 txn42)
  /\ rfile (snd (do_POST Sample.lib (arrived aws post_txn42))) = []
  /\ Z.of_nat (List.length (encode_utf8 txn42)) = 16.
Proof.
  assert (Hurl : urlparse Sample.lib (path (self (arrived aws post_txn42)))
                 = inr (mkParseResult EmptyString EmptyString "/api/data" EmptyString
                          EmptyString EmptyString)) by (vm_compute; reflexivity).
  assert (Hlen : content_length_of Sample.lib (headers (self (arrived aws post_txn42)))
                 = inr 16) by (vm_compute; reflexivity).
  assert (Hsize : 0 <= 16 <= PY_SSIZE_T_MAX - 33) by (unfold PY_SSIZE_T_MAX; lia).
  assert (Hmem : allocates Sample.lib 16 = true) by (vm_compute; reflexivity).
  destruct (post_reads_announced_length Sample.lib _ _ _ Hurl Hlen Hsize Hmem)
    as (Hread & Hleft & Hfits & _).
  split; [exact Hread |].
  split; [exact Hleft |].
  apply Hfits. vm_compute. discriminate.
Defined.


(** C1 as stated fails: the body [{"id": "\ud800"}] is a JSON object whose
    id is a string, the one lone surrogate U+D800.  The console refuses the
    Received line, [print] raises inside the [try], and the answer is the
    500 error record; the one line printed is the error line. *)
Lemma surrogate_id_counterexample :
  fst (read_body Sample.lib (arrived aws post_surrogate)) = inr (encode_utf8 surrogate_id)
  /\ decode_body Sample.lib (encode_utf8 surrogate_id)
     = inr (VDict [("id", VStr (Sample.utf8_of_code_point 55296))])
  /\ fst (do_POST Sample.lib (arrived aws post_surrogate)) = inr tt
  /\ wfile (snd (do_POST Sample.lib (arrived aws post_surrogate)))
     = json_response Sample.lib 500
         (VDict [("error",
                  VStr ("'utf-8' codec can't encode character '\ud800' in position 31: "
                        ++ "surrogates not allowed"))])
  /\ stdout (snd (do_POST Sample.lib (arrived aws post_surrogate)))
     = ["[AWS-API] Error processing request: 'utf-8' codec can't encode character "
        ++ "'\ud800' in position 31: surrogates not allowed"].
Proof. vm_compute. repeat split. Qed.

(** C6 as stated fails: the request announces 5 bytes and the client ends
    the stream after the 2 bytes [{}].  The handler reads and decodes those
    2 bytes, and answers 200. *)
Lemma short_stream_counterexample :
  content_length_of Sample.lib (headers (self (arrived aws post_short))) = inr 5
  /\ fst (read_body Sample.lib (arrived aws post_short)) = inr (encode_utf8 "{}")
  /\ List.length (encode_utf8 "{}") = 2%nat
  /\ wfile (snd (do_POST Sample.lib (arrived aws post_short)))
     = json_response Sample.lib 200
         (VDict [("success", VBool true);
                 ("message", VStr "Data saved successfully to AWS-API");
                 ("id", VNone);
                 ("timestamp", VFloat now)]).
Proof. vm_compute. repeat split. Qed.


(** The path [http://[] is refused by [urlparse]: no response. *)
Example bad_path_run :
  do_POST Sample.lib (arrived aws post_bad_path)
  = (inl (ValueError "Invalid IPv6 URL"), count_request (arrived aws post_bad_path)).
Proof. vm_compute. reflexivity. Qed.

(** [Content-Length: -1]: the whole stream is read, and answered. *)
Example minus_one_run :
  fst (read_body Sample.lib (arrived aws post_minus_one)) = inr (encode_utf8 txn42)
  /\ map (fun ev => match ev with StatusLine code => code | _ => 0 end)
       (wfile (snd (do_POST Sample.lib (arrived aws post_minus_one))))
     = [200; 0; 0; 0].
Proof. vm_compute. split; reflexivity. Qed.

(** No Content-Length header: nothing is read and the answer is 500. *)
Example no_length_run :
  fst (read_body Sample.lib (arrived aws post_no_length)) = inr []
  /\ wfile (snd (do_POST Sample.lib (arrived aws post_no_length)))
     = json_response Sample.lib 500
         (VDict [("error", VStr "Expecting value: line 1 column 1 (char 0)")]).
Proof. vm_compute. split; reflexivity. Qed.

(** The bytes on the wire for POST [{"id": "txn-42"}] on port 8081. *)
Example txn42_wire :
  wfile (snd (do_POST Sample.lib (arrived aws post_txn42)))
  = [StatusLine 200;
     HeaderField "Content-Type" "application/json";
     EndHeaders;
     Body (encode_utf8
             ("{" ++ quoted "success" ++ ": true, "
              ++ quoted "message" ++ ": " ++ quoted "Data saved successfully to AWS-API" ++ ", "
              ++ quoted "id" ++ ": " ++ quoted "txn-42" ++ ", "
              ++ quoted "timestamp" ++ ": 1700000000.5}"))].
Proof. vm_compute. reflexivity. Qed.

(** The bytes on the wire for GET [/health] on port 8081. *)
Example health_wire :
  wfile (snd (do_GET Sample.lib (arrived aws get_health)))
  = [StatusLine 200;
     HeaderField "Content-Type" "application/json";
     EndHeaders;
     Body (encode_utf8
             ("{" ++ quoted "status" ++ ": " ++ quoted "healthy" ++ ", "
              ++ quoted "service" ++ ": " ++ quoted "AWS-API" ++ ", "
              ++ quoted "timestamp" ++ ": 1700000000.5}"))].
Proof. vm_compute. reflexivity. Qed.

End Runs.

(** ** More of what the code does *)

Section Coverage.
Context {F : Type} (L : PyLib F).

(** *** The outcomes of the [try] statement *)

(** By the body alone: either it decodes to a dict whose id the console
    can show and the success path runs to its end, or an exception of line
    29, of [data.get] or of [print] enters the [except] clause; only the last
    depends on more than the body, on the instance, whose label and counter
    stand in the line that was refused. *)
Lemma try_outcome (body : bytes) :
  (exists d,
      decode_body L body = inr (VDict d)
      /\ console_fault (shown_id d) = None
      /\ forall w : World F,
           try_except (try_block L body) (except_block L) w
           = (inr tt,
              mkWorld (self w) (rfile w)
                (wfile w ++ json_response L 200
                   (VDict [("success", VBool true);
                           ("message", VStr ("Data saved successfully to "
                                             ++ server_name (server (self w))));
                           ("id", dict_get d "id" VNone);
                           ("timestamp", VFloat (clock w))]))
                (stdout w ++ [received_before (self w) ++ format_value L (shown_id d)])
                (slept w ++ [0.1%Q])
                (clock w)))
  \/ (exists e : Handler -> exn,
         (forall d, decode_body L body = inr (VDict d) -> console_fault (shown_id d) <> None)
         /\ forall w : World F,
              try_except (try_block L body) (except_block L) w
              = except_block L (e (self w)) w).
Proof.
  destruct (decode_body L body) as [e | v] eqn:Hd.
  - right. exists (fun _ => e). split; [intros d; discriminate |].
    intros w. exact (try_undecodable L _ _ _ Hd).
  - destruct (getattr_get v) as [e | get] eqn:Hg.
    + right. exists (fun _ => e). split.
      * intros d Heq. inversion Heq; subst. discriminate.
      * intros w. exact (try_no_get L _ _ _ _ Hd Hg).
    + destruct v; try discriminate.
      destruct (console_fault (shown_id items)) as [[start stop] |] eqn:Hshown.
      * right. exists (fun h => not_shown L h (shown_id items) start stop). split.
        -- intros d Heq. inversion Heq; subst. rewrite Hshown. discriminate.
        -- intros w. exact (try_not_shown L _ _ _ _ _ Hd Hshown).
      * left. exists items.
        split; [reflexivity |].
        split; [exact Hshown | intros w; exact (try_dict L _ _ _ Hd Hshown)].
Qed.

(** A raise before the [try] leaves the world as it was. *)
Lemma read_body_raise (w : World F) (e : exn) :
  fst (read_body L w) = inl e -> snd (read_body L w) = w.
Proof.
  rewrite read_body_eq.
  destruct (urlparse L (path (self w))); [reflexivity |].
  destruct (content_length_of L (headers (self w))); [reflexivity |].
  apply rfile_read_raise.
Qed.

(** The console has no part in reading the body. *)
Lemma read_body_console (w : World F) (console : list str) :
  read_body L (set_stdout console w)
  = (fst (read_body L w), set_stdout console (snd (read_body L w))).
Proof.
  rewrite !read_body_eq. cbn [set_stdout self path headers].
  destruct (urlparse L (path (self w))); [reflexivity |].
  destruct (content_length_of L (headers (self w))); [reflexivity |].
  read_cases; reflexivity.
Qed.

(** The console has no part in what [do_POST] sends either. *)
Lemma do_POST_console (w : World F) (console : list str) :
  wfile (snd (do_POST L (set_stdout console w))) = wfile (snd (do_POST L w)).
Proof.
  rewrite !do_POST_eq, read_body_console. cbn [fst snd].
  destruct (fst (read_body L w)) as [e | body]; [reflexivity |].
  destruct (try_outcome body) as [(d & _ & _ & Hrun) | (e & _ & Hrun)];
    rewrite !Hrun; [| rewrite !except_block_eq]; reflexivity.
Qed.

(** *** What a call of [do_POST] can come to *)

(** X3.  An announced length below -1, down to [-2^63], is refused by the
    stream's [read] (line 26, outside the [try]): the call raises
    [ValueError], and nothing is read, sent or printed; the request is
    counted. *)
Theorem post_length_below_minus_one_sends_nothing (w : World F) (parsed : ParseResult)
    (size : Z) :
  urlparse L (path (self w)) = inr parsed ->
  content_length_of L (headers (self w)) = inr size ->
  - PY_SSIZE_T_MAX - 1 <= size < -1 ->
  do_POST L w
  = (inl (ValueError "read length must be non-negative or -1"), count_request w).
Proof.
  unfold PY_SSIZE_T_MAX. intros Hurl Hlen Hsize.
  rewrite do_POST_eq, read_body_eq, Hurl, Hlen. read_case. reflexivity.
Qed.

(** X14.  A length that [read] cannot serve makes the call raise before
    the [try], and nothing is read, sent or printed; the request is counted.
    A length that is no machine size (below [-2^63] or above [2^63 - 1]) is
    refused with [OverflowError]; so is one whose [bytes] object would pass
    the largest size (above [2^63 - 34]); one for which the process has no
    memory is refused with [MemoryError]. *)
Theorem post_length_too_large_sends_nothing (w : World F) (parsed : ParseResult)
    (size : Z) :
  urlparse L (path (self w)) = inr parsed ->
  content_length_of L (headers (self w)) = inr size ->
  (size < - PY_SSIZE_T_MAX - 1 \/ PY_SSIZE_T_MAX < size ->
   do_POST L w
   = (inl (OverflowError "cannot fit 'int' into an index-sized integer"), count_request w))
  /\ (PY_SSIZE_T_MAX - 33 < size <= PY_SSIZE_T_MAX ->
      do_POST L w = (inl (OverflowError "byte string is too large"), count_request w))
  /\ (0 <= size <= PY_SSIZE_T_MAX - 33 ->
      allocates L size = false ->
      do_POST L w = (inl MemoryError, count_request w)).
Proof.
  unfold PY_SSIZE_T_MAX. intros Hurl Hlen.
  rewrite do_POST_eq, read_body_eq, Hurl, Hlen.
  split; [| split].
  - intros Hsize. read_case; reflexivity.
  - intros Hsize. read_case. reflexivity.
  - intros Hsize Hmem. read_case. rewrite Hmem. reflexivity.
Qed.


(** X5.  Once the body is read, the status is 200 exactly when the body
    decodes to a JSON object whose id the console can show (any id but a
    string that holds a lone surrogate; no id at all will do), and 500
    exactly when it does not. *)
Theorem post_answers_200_iff_object (w : World F) (body : bytes) :
  fst (read_body L w) = inr body ->
  ((exists d, decode_body L body = inr (VDict d) /\ console_fault (shown_id d) = None)
   <-> exists payload,
         wfile (snd (do_POST L w)) = (wfile w ++ json_response L 200 payload)%list)
  /\ ((forall d, decode_body L body = inr (VDict d) -> console_fault (shown_id d) <> None)
      <-> exists payload,
            wfile (snd (do_POST L w)) = (wfile w ++ json_response L 500 payload)%list).
Proof.
  intros Hbody.
  destruct (read_body_frame L w) as (_ & Hwfile & _).
  rewrite do_POST_eq, Hbody.
  destruct (try_outcome body) as [(d & Hd & Hshown & Hrun) | (e & Hno & Hrun)]; rewrite Hrun.
  - cbn [snd wfile count_request set_self]. rewrite Hwfile.
    split; split.
    + intros _. eexists. reflexivity.
    + intros _. exists d. split; [exact Hd | exact Hshown].
    + intros Hno. exfalso. exact (Hno d Hd Hshown).
    + intros (payload & Heq). apply app_inv_head in Heq. discriminate.
  - rewrite except_block_eq.
    cbn [snd wfile count_request set_self]. rewrite Hwfile.
    split; split.
    + intros (d & Hd & Hshown). exfalso. exact (Hno d Hd Hshown).
    + intros (payload & Heq). apply app_inv_head in Heq. discriminate.
    + intros _. eexists. reflexivity.
    + intros _. exact Hno.
Qed.

(** X6.  The handler sleeps once, for 0.1 s, on the success path and not
    at all otherwise: not when the call raises before the [try], not when
    the body fails to decode or is no object, not when the console refuses
    the id (line 30 comes before line 33), and never in [do_GET]. *)
Theorem sleeps_only_on_success (w : World F) :
  slept (snd (do_POST L w))
  = match fst (read_body L w) with
    | inr body =>
        match decode_body L body with
        | inr (VDict d) =>
            match console_fault (shown_id d) with
            | None => (slept w ++ [0.1%Q])%list
            | Some _ => slept w
            end
        | _ => slept w
        end
    | inl _ => slept w
    end
  /\ slept (snd (do_GET L w)) = slept w.
Proof.
  split; [| rewrite do_GET_eq; reflexivity].
  destruct (read_body_frame L w) as (_ & _ & _ & Hslept & _).
  rewrite do_POST_eq.
  destruct (fst (read_body L w)) as [e | body]; [exact Hslept |].
  destruct (decode_body L body) as [e | v] eqn:Hd.
  - rewrite (try_undecodable L _ _ _ Hd), except_block_eq. exact Hslept.
  - destruct v;
      try (rewrite (try_no_get L _ _ _ _ Hd eq_refl), except_block_eq; exact Hslept).
    destruct (console_fault (shown_id items)) as [[start stop] |] eqn:Hshown.
    + rewrite (try_not_shown L _ _ _ _ _ Hd Hshown), except_block_eq. exact Hslept.
    + rewrite (try_dict L _ _ _ Hd Hshown).
      cbn [snd slept count_request set_self]. rewrite Hslept. reflexivity.
Qed.

(** X7.  A POST that is answered 500 prints one line,
    [<label>] Error processing request: <str(e)>, with the exception that
    line 29 or [data.get] raised. *)
Theorem post_failure_prints_error_line (w : World F) (body : bytes) (e : exn) :
  fst (read_body L w) = inr body ->
  (decode_body L body = inl e
   \/ exists v, decode_body L body = inr v /\ getattr_get v = inl e) ->
  stdout (snd (do_POST L w))
  = (stdout w ++ [("[" ++ server_name (server (self w))
                   ++ "] Error processing request: " ++ str_exn e)%string])%list.
Proof.
  intros Hbody Hcause.
  destruct (read_body_frame L w) as (Hself & _ & Hout & _).
  rewrite do_POST_eq, Hbody.
  assert (Hrun : try_except (try_block L body) (except_block L)
                   (count_request (snd (read_body L w)))
                 = except_block L e (count_request (snd (read_body L w)))).
  { destruct Hcause as [Hd | (v & Hd & Hg)].
    - exact (try_undecodable L _ _ _ Hd).
    - exact (try_no_get L _ _ _ _ Hd Hg). }
  rewrite Hrun, except_block_eq.
  cbn [snd stdout self count_request set_self set_request_count server].
  rewrite Hself, Hout. reflexivity.
Qed.

(** *** What a listener does with its requests *)

Lemma finish_request_console (srv : HTTPServer) (console : list str) (r : Request F) :
  wfile (snd (finish_request L srv console r)) = wfile (snd (finish_request L srv [] r)).
Proof.
  unfold finish_request, handle_one_request, bind, parse_request, modify, connect.
  cbn [self rfile wfile stdout slept clock MockEndpointHandler_init request_count server].
  destruct (command r); cbn [dispatch].
  - rewrite !do_GET_eq. reflexivity.
  - exact (do_POST_console
             (mkWorld (mkHandler 0 srv (request_line r) (request_target r)
                                 (request_headers r))
                      (request_rest r) [] [] [] (request_time r))
             console).
Qed.

(** X8.  Two POSTs to a listener whose bodies are JSON objects with the
    same id, or both without one, are sent the same response and logged
    with the same line, given the same clock: nothing else of the body, the
    path or the headers shows. *)
Theorem post_answer_depends_on_id_only (srv : HTTPServer) (console : list str)
    (r1 r2 : Request F) (body1 body2 : bytes) (d1 d2 : list (str * value F)) :
  command r1 = POST ->
  command r2 = POST ->
  request_time r1 = request_time r2 ->
  fst (read_body L (snd (parse_request r1 (connect srv console (request_time r1)))))
  = inr body1 ->
  fst (read_body L (snd (parse_request r2 (connect srv console (request_time r2)))))
  = inr body2 ->
  decode_body L body1 = inr (VDict d1) ->
  decode_body L body2 = inr (VDict d2) ->
  dict_lookup d1 "id" = dict_lookup d2 "id" ->
  wfile (snd (finish_request L srv console r1)) = wfile (snd (finish_request L srv console r2))
  /\ stdout (snd (finish_request L srv console r1))
     = stdout (snd (finish_request L srv console r2)).
Proof.
  intros Hc1 Hc2 Htime Hb1 Hb2 Hd1 Hd2 Hid.
  unfold finish_request, handle_one_request, bind. rewrite Hc1, Hc2. cbn [dispatch].
  set (w1 := snd (parse_request r1 (connect srv console (request_time r1)))) in *.
  set (w2 := snd (parse_request r2 (connect srv console (request_time r2)))) in *.
  change (parse_request r1 (connect srv console (request_time r1))) with (@inr exn unit tt, w1).
  change (parse_request r2 (connect srv console (request_time r2))) with (@inr exn unit tt, w2).
  cbn iota.
  destruct (read_body_frame L w1) as (Hs1 & Hw1 & Ho1 & _ & Hk1).
  destruct (read_body_frame L w2) as (Hs2 & Hw2 & Ho2 & _ & Hk2).
  assert (Hsame : shown_id d1 = shown_id d2)
    by (unfold shown_id, dict_get; rewrite Hid; reflexivity).
  rewrite !do_POST_eq, Hb1, Hb2.
  destruct (console_fault (shown_id d1)) as [[start stop] |] eqn:Hshown1.
  - assert (Hshown2 : console_fault (shown_id d2) = Some (start, stop))
      by (rewrite <- Hsame; exact Hshown1).
    rewrite (try_not_shown L _ _ _ _ _ Hd1 Hshown1), (try_not_shown L _ _ _ _ _ Hd2 Hshown2).
    rewrite !except_block_eq.
    unfold not_shown, received_before.
    cbn [snd wfile stdout self clock count_request set_self set_request_count server
         request_count].
    rewrite Hs1, Hs2, Hw1, Hw2, Ho1, Ho2, Hsame.
    unfold w1, w2, parse_request, modify, connect.
    cbn [snd self wfile stdout clock server request_count MockEndpointHandler_init].
    split; reflexivity.
  - assert (Hshown2 : console_fault (shown_id d2) = None)
      by (rewrite <- Hsame; exact Hshown1).
    rewrite (try_dict L _ _ _ Hd1 Hshown1), (try_dict L _ _ _ Hd2 Hshown2).
    unfold received_before.
    cbn [snd wfile stdout self clock count_request set_self set_request_count server
         request_count].
    rewrite Hs1, Hs2, Hw1, Hw2, Ho1, Ho2, Hk1, Hk2, Hsame.
    unfold dict_get. rewrite Hid.
    unfold w1, w2, parse_request, modify, connect.
    cbn [snd self wfile stdout clock server request_count MockEndpointHandler_init].
    rewrite Htime. split; reflexivity.
Qed.

(** X9.  A listener keeps nothing from one request to the next: what it
    sends on each connection is what it would send if that request were the
    first it ever got, on an empty console. *)
Theorem answers_do_not_depend_on_history (srv : HTTPServer) (rs : list (Request F)) :
  forall console,
    snd (serve_forever L srv console rs)
    = map (fun r => wfile (snd (finish_request L srv [] r))) rs.
Proof.
  induction rs as [| r rest IH]; intros console; [reflexivity |].
  cbn [serve_forever map].
  destruct (finish_request_label L srv console r) as (Hsrv & _).
  rewrite Hsrv.
  specialize (IH (stdout (snd (finish_request L srv console r)))).
  destruct (serve_forever L srv (stdout (snd (finish_request L srv console r))) rest)
    as [[srv' console'] sent].
  cbn [snd] in *. rewrite IH, finish_request_console. reflexivity.
Qed.







(** X15.  [run_mock_server(port, name)] for a port outside 0..65535: the
    constructor raises [OverflowError], so the call ends before its line is
    printed and before anything is served. *)
Theorem run_mock_server_refuses_port (port : Z) (name : str) :
  port < 0 \/ 65535 < port ->
  run_mock_server L port name = inl (OverflowError "bind(): port must be 0-65535.").
Proof.
  intros Hport. unfold run_mock_server, HTTPServer_init, socket_bind.
  destruct (Z.ltb_spec port 0); [reflexivity |].
  destruct (Z.ltb_spec 65535 port); [reflexivity | lia].
Qed.

(** X12.  Two GETs to a listener are sent the same health record, given
    the same clock, whatever their paths, headers and bodies; a GET reads
    nothing of what follows its header block and prints nothing. *)
Theorem get_answer_ignores_request (srv : HTTPServer) (console : list str)
    (r1 r2 : Request F) :
  command r1 = GET ->
  command r2 = GET ->
  request_time r1 = request_time r2 ->
  wfile (snd (finish_request L srv console r1)) = wfile (snd (finish_request L srv console r2))
  /\ rfile (snd (finish_request L srv console r1)) = request_rest r1
  /\ stdout (snd (finish_request L srv console r1)) = console.
Proof.
  intros Hc1 Hc2 Htime.
  unfold finish_request, handle_one_request, bind, parse_request, modify, connect.
  rewrite Hc1, Hc2. cbn [dispatch]. rewrite !do_GET_eq.
  cbn [snd self rfile wfile stdout clock set_wfile server MockEndpointHandler_init].
  rewrite Htime. repeat split.
Qed.

(** X13.  [do_POST] takes bytes from the front of the request stream only:
    when it has read a body, the stream before is that body followed by the
    stream after; when it raises before reading, the stream is untouched. *)
Theorem post_consumes_a_prefix (w : World F) :
  match fst (read_body L w) with
  | inr body => rfile w = (body ++ rfile (snd (do_POST L w)))%list
  | inl _ => rfile (snd (do_POST L w)) = rfile w
  end.
Proof.
  rewrite do_POST_eq.
  destruct (fst (read_body L w)) as [e | body] eqn:Hbody.
  - rewrite (read_body_raise _ _ Hbody). reflexivity.
  - destruct (try_frame L (count_request (snd (read_body L w))) body) as (_ & Hr).
    rewrite Hr. cbn [rfile count_request set_self].
    revert Hbody. rewrite read_body_eq.
    destruct (urlparse L (path (self w))); [discriminate |].
    destruct (content_length_of L (headers (self w))) as [e | size]; [discriminate |].
    read_cases; cbn [fst snd rfile set_rfile]; intros Hbody;
      try discriminate; inversion Hbody; subst body.
    + symmetry. apply app_nil_r.
    + symmetry. apply firstn_skipn.
Qed.

End Coverage.

(** ** These theorems at work on the sample requests *)

Module CoverageRuns.
Import Requests.

(** POST to the path [http://[]: no response. *)
Lemma post_bad_path_sends_nothing_witness :
  do_POST Sample.lib (arrived aws post_bad_path)
  = (inl (ValueError "Invalid IPv6 URL"), count_request (arrived aws post_bad_path)).
Proof.
  assert (Hurl : urlparse Sample.lib (path (self (arrived aws post_bad_path)))
                 = inl (ValueError "Invalid IPv6 URL")) by (vm_compute; reflexivity).
  exact (post_bad_path_sends_nothing Sample.lib _ _ Hurl).
Defined.

(** POST with [Content-Length: -1]: the 16 bytes of the stream are read. *)
Lemma post_minus_one_reads_all_witness :
  read_body Sample.lib (arrived aws post_minus_one)
  = (inr (encode_utf8 txn42), set_rfile [] (arrived aws post_minus_one)).
Proof.
  assert (Hurl : urlparse Sample.lib (path (self (arrived aws post_minus_one)))
                 = inr (mkParseResult EmptyString EmptyString "/api/data" EmptyString
                          EmptyString EmptyString)) by (vm_compute; reflexivity).
  assert (Hlen : content_length_of Sample.lib (headers (self (arrived aws post_minus_one)))
                 = inr (-1)) by (vm_compute; reflexivity).
  exact (post_minus_one_reads_all Sample.lib _ _ Hurl Hlen).
Defined.

(** POST with [Content-Length: -5]: no response. *)
Lemma post_length_below_minus_one_sends_nothing_witness :
  do_POST Sample.lib (arrived aws post_minus_five)
  = (inl (ValueError "read length must be non-negative or -1"),
     count_request (arrived aws post_minus_five)).
Proof.
  assert (Hurl : urlparse Sample.lib (path (self (arrived aws post_minus_five)))
                 = inr (mkParseResult EmptyString EmptyString "/api/data" EmptyString
                          EmptyString EmptyString)) by (vm_compute; reflexivity).
  assert (Hlen : content_length_of Sample.lib (headers (self (arrived aws post_minus_five)))
                 = inr (-5)) by (vm_compute; reflexivity).
  assert (Hsize : - PY_SSIZE_T_MAX - 1 <= -5 < -1) by (unfold PY_SSIZE_T_MAX; lia).
  exact (post_length_below_minus_one_sends_nothing Sample.lib _ _ _ Hurl Hlen Hsize).
Defined.

(** POST [{"id": "\ud800"}]: an object, but with an id the console
    refuses, so the status is 500. *)
Lemma post_answers_200_iff_object_witness :
  exists payload,
    wfile (snd (do_POST Sample.lib (arrived aws post_surrogate)))
    = (wfile (arrived aws post_surrogate) ++ json_response Sample.lib 500 payload)%list.
Proof.
  assert (Hbody : fst (read_body Sample.lib (arrived aws post_surrogate))
                  = inr (encode_utf8 surrogate_id)) by (vm_compute; reflexivity).
  assert (Hdict : decode_body Sample.lib (encode_utf8 surrogate_id)
                  = inr (VDict [("id", VStr (Sample.utf8_of_code_point 55296))]))
    by (vm_compute; reflexivity).
  destruct (post_answers_200_iff_object Sample.lib _ _ Hbody) as (_ & H500).
  apply H500. intros d Hd. rewrite Hdict in Hd. inversion Hd; subst d.
  vm_compute. discriminate.
Defined.

(** POST [not-json] to the listener on port 8082: the error line. *)
Lemma post_failure_prints_error_line_witness :
  stdout (snd (do_POST Sample.lib (arrived azure post_not_json)))
  = ["[Azure-API] Error processing request: Expecting value: line 1 column 1 (char 0)"].
Proof.
  assert (Hbody : fst (read_body Sample.lib (arrived azure post_not_json))
                  = inr (encode_utf8 "not-json")) by (vm_compute; reflexivity).
  assert (Hraise : decode_body Sample.lib (encode_utf8 "not-json")
                   = inl (JSONDecodeError "not-json" (mkJSONFault "Expecting value" 0 1 1)))
    by (vm_compute; reflexivity).
  exact (post_failure_prints_error_line Sample.lib _ _ _ Hbody (or_introl Hraise)).
Defined.

(** POST [{"id": "txn-42"}] and POST [{"id": "txn-42", "amount": 7}]: the
    same response and the same line. *)
Lemma post_answer_depends_on_id_only_witness :
  wfile (snd (finish_request Sample.lib aws [] post_txn42))
  = wfile (snd (finish_request Sample.lib aws [] (post (fields "29") txn42_amount)))
  /\ stdout (snd (finish_request Sample.lib aws [] post_txn42))
     = stdout (snd (finish_request Sample.lib aws [] (post (fields "29") txn42_amount))).
Proof.
  assert (Hb1 : fst (read_body Sample.lib
                       (snd (parse_request post_txn42
                               (connect aws [] (request_time post_txn42)))))
                = inr (encode_utf8 txn42)) by (vm_compute; reflexivity).
  assert (Hb2 : fst (read_body Sample.lib
                       (snd (parse_request (post (fields "29") txn42_amount)
                               (connect aws []
                                  (request_time (post (fields "29") txn42_amount))))))
                = inr (encode_utf8 txn42_amount)) by (vm_compute; reflexivity).
  assert (Hd1 : decode_body Sample.lib (encode_utf8 txn42)
                = inr (VDict [("id", VStr "txn-42")])) by (vm_compute; reflexivity).
  assert (Hd2 : decode_body Sample.lib (encode_utf8 txn42_amount)
                = inr (VDict [("id", VStr "txn-42"); ("amount", VInt 7)]))
    by (vm_compute; reflexivity).
  exact (post_answer_depends_on_id_only Sample.lib aws [] post_txn42
           (post (fields "29") txn42_amount) _ _ _ _
           eq_refl eq_refl eq_refl Hb1 Hb2 Hd1 Hd2 eq_refl).
Defined.

(** POST with [Content-Length: 9223372036854775808], which is [2^63]: no
    response. *)
Lemma post_length_too_large_sends_nothing_witness :
  do_POST Sample.lib (arrived aws (post (fields "9223372036854775808") txn42))
  = (inl (OverflowError "cannot fit 'int' into an index-sized integer"),
     count_request (arrived aws (post (fields "9223372036854775808") txn42))).
Proof.
  assert (Hurl : urlparse Sample.lib
                   (path (self (arrived aws (post (fields "9223372036854775808") txn42))))
                 = inr (mkParseResult EmptyString EmptyString "/api/data" EmptyString
                          EmptyString EmptyString)) by (vm_compute; reflexivity).
  assert (Hlen : content_length_of Sample.lib
                   (headers (self (arrived aws (post (fields "9223372036854775808") txn42))))
                 = inr 9223372036854775808) by (vm_compute; reflexivity).
  assert (Hsize : 9223372036854775808 < - PY_SSIZE_T_MAX - 1
                  \/ PY_SSIZE_T_MAX < 9223372036854775808)
    by (right; unfold PY_SSIZE_T_MAX; lia).
  destruct (post_length_too_large_sends_nothing Sample.lib _ _ _ Hurl Hlen) as (Hno & _).
  exact (Hno Hsize).
Defined.

(** [run_mock_server(70000, "AWS-API")]: the bind refuses the port. *)
Lemma run_mock_server_refuses_port_witness :
  run_mock_server Sample.lib 70000 "AWS-API"
  = inl (OverflowError "bind(): port must be 0-65535.").
Proof.
  assert (Hport : 70000 < 0 \/ 65535 < 70000) by (right; lia).
  exact (run_mock_server_refuses_port Sample.lib 70000 "AWS-API" Hport).
Defined.


(** GET [/health] and a GET with another path, a length and a body: the
    same record. *)
Lemma get_answer_ignores_request_witness :
  wfile (snd (finish_request Sample.lib aws [] get_health))
  = wfile (snd (finish_request Sample.lib aws []
                  (mkRequest GET "GET /other HTTP/1.1" "/other" (fields "3")
                     (encode_utf8 "abc") now)))
  /\ rfile (snd (finish_request Sample.lib aws [] get_health)) = []
  /\ stdout (snd (finish_request Sample.lib aws [] get_health)) = [].
Proof.
  exact (get_answer_ignores_request Sample.lib aws [] get_health
           (mkRequest GET "GET /other HTTP/1.1" "/other" (fields "3")
              (encode_utf8 "abc") now)
           eq_refl eq_refl eq_refl).
Defined.

End CoverageRuns.
